(** * Visual console composition engine (visual_console/src/VisualConsole.ts)

    A shallow embedding of the console props decoder, the item factory,
    the console constructor with its stacking sort, and the diffed
    render that the [props] setter and [resize] go through. *)

From Stdlib Require Import ZArith Lia Ascii String.
From stdpp Require Import base option list sorting strings pretty gmap.

Local Open Scope string_scope.
Local Open Scope list_scope.
Local Open Scope Z_scope.

(** ** JavaScript values and raw objects *)

(** The values a raw descriptor can hold.  Numbers are the integers that
    the descriptors of a console carry (ids, sizes, type tags). *)
Inductive JSValue :=
| JUndefined
| JNull
| JBoolean (b : bool)
| JNumber (n : Z)
| JString (s : string).

#[global] Instance JSValue_eq_dec : EqDecision JSValue.
Proof. solve_decision. Defined.

(** [UnknownObject]: an object used as a bag of fields. *)
Abbreviation UnknownObject := (gmap string JSValue).

(** Property access [data.key]; an absent key reads as [undefined]. *)
Definition get (data : UnknownObject) (key : string) : JSValue :=
  default JUndefined (data !! key).

(** [v == null] *)
Definition eq_null (v : JSValue) : bool :=
  match v with
  | JUndefined | JNull => true
  | _ => false
  end.

(** [a !== b] on values of type [string | null]. *)
Definition strict_ne (a b : option string) : bool :=
  bool_decide (a ≠ b).

(** ** Exceptions *)

Record TypeError := { message : string }.

Inductive Result (A : Type) :=
| Throw (e : TypeError)
| Return (a : A).
Arguments Throw {A} e.
Arguments Return {A} a.

(** Sequencing: an exception thrown by the first computation propagates. *)
#[global] Instance Result_bind : MBind Result := λ A B k r,
  match r with
  | Throw e => Throw e
  | Return a => k a
  end.

(** ** Console props *)

(** [Size]: the dimensions are the integers the size decoder parses. *)
Record Size := { sz_width : Z; sz_height : Z }.

Module VisualConsoleProps.
Record t := mk {
  id : Z;
  name : string;
  groupId : Z;
  backgroundURL : option string;
  backgroundColor : option string;
  isFavorite : bool;
  width : Z;
  height : Z
}.

(** [{ ...props, width, height }] *)
Definition with_size (p : t) (w h : Z) : t :=
  mk (id p) (name p) (groupId p) (backgroundURL p) (backgroundColor p)
     (isFavorite p) w h.

(** A props record seen at the type [Size] it extends. *)
Definition size (p : t) : Size :=
  {| sz_width := width p; sz_height := height p |}.
End VisualConsoleProps.
Abbreviation VisualConsoleProps := VisualConsoleProps.t.

(** ** The DOM surface *)

(** DOM nodes owned by items are referred to by handle. *)
Abbreviation Node := nat.

Module Style.
Inductive property := BackgroundImage | BackgroundColor | Width | Height.

Record t := mk {
  backgroundImage : option string;
  backgroundColor : option string;
  width : option string;
  height : option string
}.

Definition set (p : property) (v : option string) (s : t) : t :=
  match p with
  | BackgroundImage => mk v (backgroundColor s) (width s) (height s)
  | BackgroundColor => mk (backgroundImage s) v (width s) (height s)
  | Width => mk (backgroundImage s) (backgroundColor s) v (height s)
  | Height => mk (backgroundImage s) (backgroundColor s) (width s) v
  end.
End Style.

#[global] Instance property_eq_dec : EqDecision Style.property.
Proof. solve_decision. Defined.

(** Every write to the surface is recorded, in the order it happens. *)
Inductive Mutation :=
| SetStyle (p : Style.property) (v : option string)
| Append (n : Node).

#[global] Instance Mutation_eq_dec : EqDecision Mutation.
Proof. solve_decision. Defined.

(** [style] holds, for each attribute, the value the code last assigned
    to it; what a browser keeps of an assigned value after validating it
    is not modelled.  [mutations] is the sequence of writes performed. *)
Record HTMLElement := {
  style : Style.t;
  childNodes : list Node;
  mutations : list Mutation
}.

(** [el.style.<p> = v] *)
Definition setStyle (p : Style.property) (v : option string)
    (el : HTMLElement) : HTMLElement :=
  {| style := Style.set p v (style el);
     childNodes := childNodes el;
     mutations := mutations el ++ [SetStyle p v] |}.

(** [el.append(n)]: [n] becomes the last child; a node that is already a
    child is moved. *)
Definition append (n : Node) (el : HTMLElement) : HTMLElement :=
  {| style := style el;
     childNodes := filter (λ m, m ≠ n) (childNodes el) ++ [n];
     mutations := mutations el ++ [Append n] |}.

(** ** Items *)

Module VisualConsoleItemProps.
(** The fields of an item's props that the console reads. *)
Record t := mk {
  id : Z;
  isOnTop : bool
}.
End VisualConsoleItemProps.
Abbreviation VisualConsoleItemProps := VisualConsoleItemProps.t.

(** The item classes the factory instantiates. *)
Inductive ItemClass := StaticGraph | Icon | Group | ColorCloud.

(** The relay registered by the console: it logs the clicked item. *)
Inductive ClickHandler := LogClicked.

Record VisualConsoleItem := {
  class : ItemClass;
  props : VisualConsoleItemProps;
  elementRef : Node;
  clickHandlers : list ClickHandler
}.

#[global] Instance ItemClass_eq_dec : EqDecision ItemClass.
Proof. solve_decision. Defined.
#[global] Instance ClickHandler_eq_dec : EqDecision ClickHandler.
Proof. solve_decision. Defined.
#[global] Instance VisualConsoleItemProps_eq_dec :
  EqDecision VisualConsoleItemProps.
Proof. solve_decision. Defined.
#[global] Instance VisualConsoleItem_eq_dec : EqDecision VisualConsoleItem.
Proof. solve_decision. Defined.

(** [new C(props)]: the instance owns one fresh element. *)
Definition new (c : ItemClass) (p : VisualConsoleItemProps) (fresh : Node)
    : VisualConsoleItem :=
  {| class := c; props := p; elementRef := fresh; clickHandlers := [] |}.

(** [item.onClick(handler)] *)
Definition onClick (h : ClickHandler) (it : VisualConsoleItem)
    : VisualConsoleItem :=
  {| class := class it; props := props it; elementRef := elementRef it;
     clickHandlers := clickHandlers it ++ [h] |}.

(** ** The console *)

Record VisualConsole := {
  containerRef : HTMLElement;
  _props : VisualConsoleProps;
  elements : list VisualConsoleItem
}.

Definition with_container (this : VisualConsole) (c : HTMLElement)
    : VisualConsole :=
  {| containerRef := c; _props := _props this; elements := elements this |}.

(** [get props()] *)
Definition get_props (this : VisualConsole) : VisualConsoleProps :=
  _props this.

(** [sizeChanged(prevSize, newSize)] *)
Definition sizeChanged (prevSize newSize : Size) : bool :=
  negb (sz_width prevSize =? sz_width newSize)
  || negb (sz_height prevSize =? sz_height newSize).

(** [`${n}px`] *)
Definition px (n : Z) : string := pretty n +:+ "px".

(** [resizeElement(width, height)] *)
Definition resizeElement (width height : Z) (this : VisualConsole)
    : VisualConsole :=
  with_container this
    (setStyle Style.Height (Some (px height))
       (setStyle Style.Width (Some (px width)) (containerRef this))).

(** [render(prevProps = null)] *)
Definition render (prevProps : option VisualConsoleProps)
    (this : VisualConsole) : VisualConsole :=
  let p := get_props this in
  match prevProps with
  | Some prev =>
      let this1 :=
        if strict_ne (VisualConsoleProps.backgroundURL prev)
                     (VisualConsoleProps.backgroundURL p)
        then with_container this
               (setStyle Style.BackgroundImage
                  (VisualConsoleProps.backgroundURL p) (containerRef this))
        else this in
      let this2 :=
        if strict_ne (VisualConsoleProps.backgroundColor prev)
                     (VisualConsoleProps.backgroundColor p)
        then with_container this1
               (setStyle Style.BackgroundColor
                  (VisualConsoleProps.backgroundColor p) (containerRef this1))
        else this1 in
      if sizeChanged (VisualConsoleProps.size prev) (VisualConsoleProps.size p)
      then resizeElement (VisualConsoleProps.width p)
             (VisualConsoleProps.height p) this2
      else this2
  | None =>
      let this1 :=
        with_container this
          (setStyle Style.BackgroundImage
             (VisualConsoleProps.backgroundURL p) (containerRef this)) in
      let this2 :=
        with_container this1
          (setStyle Style.BackgroundColor
             (VisualConsoleProps.backgroundColor p) (containerRef this1)) in
      resizeElement (VisualConsoleProps.width p)
        (VisualConsoleProps.height p) this2
  end.

(** [set props(newProps)] *)
Definition set_props (newProps : VisualConsoleProps) (this : VisualConsole)
    : VisualConsole :=
  let prevProps := get_props this in
  let this' :=
    {| containerRef := containerRef this; _props := newProps;
       elements := elements this |} in
  render (Some prevProps) this'.

(** [resize(width, height)] *)
Definition resize (width height : Z) (this : VisualConsole) : VisualConsole :=
  set_props (VisualConsoleProps.with_size (get_props this) width height) this.

(** ** The update protocol as the specification words it *)

(** The patches a replacement of [prev] by [next] calls for: the
    background image if [backgroundURL] changed, the background colour if
    [backgroundColor] changed, and both sizing attributes if [width] or
    [height] changed. *)
Definition patches (prev next : VisualConsoleProps) : list Mutation :=
  (if bool_decide (VisualConsoleProps.backgroundURL prev
                   = VisualConsoleProps.backgroundURL next)
   then []
   else [SetStyle Style.BackgroundImage
           (VisualConsoleProps.backgroundURL next)])
  ++ (if bool_decide (VisualConsoleProps.backgroundColor prev
                      = VisualConsoleProps.backgroundColor next)
      then []
      else [SetStyle Style.BackgroundColor
              (VisualConsoleProps.backgroundColor next)])
  ++ (if bool_decide (VisualConsoleProps.width prev
                      = VisualConsoleProps.width next
                      ∧ VisualConsoleProps.height prev
                        = VisualConsoleProps.height next)
      then []
      else [SetStyle Style.Width (Some (px (VisualConsoleProps.width next)));
            SetStyle Style.Height
              (Some (px (VisualConsoleProps.height next)))]).

Definition applyMutation (el : HTMLElement) (m : Mutation) : HTMLElement :=
  match m with
  | SetStyle p v => setStyle p v el
  | Append n => append n el
  end.

(** [setProps(newProps)]: replace the stored props wholesale and apply
    the patches of the diff against the previous ones. *)
Definition setProps_spec (newProps : VisualConsoleProps)
    (this : VisualConsole) : VisualConsole :=
  {| containerRef :=
       foldl applyMutation (containerRef this)
         (patches (get_props this) newProps);
     _props := newProps;
     elements := elements this |}.

(** The resize helper: only [width] and [height] are replaced on top of
    the current props, and the result goes through [setProps]. *)
Definition resize_spec (width height : Z) (this : VisualConsole)
    : VisualConsole :=
  let p := get_props this in
  setProps_spec
    {| VisualConsoleProps.id := VisualConsoleProps.id p;
       VisualConsoleProps.name := VisualConsoleProps.name p;
       VisualConsoleProps.groupId := VisualConsoleProps.groupId p;
       VisualConsoleProps.backgroundURL := VisualConsoleProps.backgroundURL p;
       VisualConsoleProps.backgroundColor :=
         VisualConsoleProps.backgroundColor p;
       VisualConsoleProps.isFavorite := VisualConsoleProps.isFavorite p;
       VisualConsoleProps.width := width;
       VisualConsoleProps.height := height |}
    this.

(** Whether a mutation is a write of a sizing attribute. *)
Definition isSizing (m : Mutation) : bool :=
  match m with
  | SetStyle Style.Width _ | SetStyle Style.Height _ => true
  | _ => false
  end.

(** ** What the file imports *)

(** [VisualConsoleItemType], in the order the factory's [switch] lists
    its members. *)
Inductive VisualConsoleItemType :=
| STATIC_GRAPH | MODULE_GRAPH | SIMPLE_VALUE | PERCENTILE_BAR | LABEL | ICON
| SIMPLE_VALUE_MAX | SIMPLE_VALUE_MIN | SIMPLE_VALUE_AVG | PERCENTILE_BUBBLE
| SERVICE | GROUP_ITEM | BOX_ITEM | LINE_ITEM | AUTO_SLA_GRAPH
| CIRCULAR_PROGRESS_BAR | CIRCULAR_INTERIOR_PROGRESS_BAR | DONUT_GRAPH
| BARS_GRAPH | CLOCK | COLOR_CLOUD.

#[global] Instance VisualConsoleItemType_eq_dec :
  EqDecision VisualConsoleItemType.
Proof. solve_decision. Defined.

(** The members whose [case] constructs an instance. *)
Definition implemented (t : VisualConsoleItemType) : option ItemClass :=
  match t with
  | STATIC_GRAPH => Some StaticGraph
  | ICON => Some Icon
  | GROUP_ITEM => Some Group
  | COLOR_CLOUD => Some ColorCloud
  | _ => None
  end.

(** The global [parseInt] and the names imported from [./lib],
    [./VisualConsoleItem] and [./items/*].  [parseInt] answers [None] for
    [NaN]; [typeTag] gives each enumeration member its number. *)
Class Imports := {
  parseInt : JSValue → option Z;
  parseBoolean : JSValue → bool;
  sizePropsDecoder : UnknownObject → Result Size;
  typeTag : VisualConsoleItemType → Z;
  staticGraphPropsDecoder : UnknownObject → Result VisualConsoleItemProps;
  iconPropsDecoder : UnknownObject → Result VisualConsoleItemProps;
  colorCloudPropsDecoder : UnknownObject → Result VisualConsoleItemProps;
  groupPropsDecoder : UnknownObject → Result VisualConsoleItemProps
}.

(** Modelled from the spec: [parseIntOr] of [./lib], which is not part of
    the sources at hand.  A value that is absent or not integer-parseable
    yields the default, any other value its parsed integer.  The default
    the factory passes is [null], here [None]. *)
Definition parseIntOr `{Imports} (value : JSValue) (defaultValue : option Z)
    : option Z :=
  if eq_null value then defaultValue
  else match parseInt value with
       | Some n => Some n
       | None => defaultValue
       end.

(** ** [visualConsolePropsDecoder] *)

(** [typeof v === "string" && v.length > 0 ? v : null] *)
Definition nonEmptyStringOrNull (v : JSValue) : option string :=
  match v with
  | JString s => if bool_decide (s ≠ "") then Some s else None
  | _ => None
  end.

(** The three guards throw in source order; [parseInt] is pure, so the
    value bound by a guard is the one the returned literal computes
    again. *)
Definition visualConsolePropsDecoder `{Imports} (data : UnknownObject)
    : Result VisualConsoleProps :=
  let id := get data "id" in
  let name := get data "name" in
  let groupId := get data "groupId" in
  let backgroundURL := get data "backgroundURL" in
  let backgroundColor := get data "backgroundColor" in
  let isFavorite := get data "isFavorite" in
  if eq_null id then Throw {| message := "invalid Id." |} else
  match parseInt id with
  | None => Throw {| message := "invalid Id." |}
  | Some id' =>
    match name with
    | JString name' =>
      if bool_decide (name' = "") then Throw {| message := "invalid name." |}
      else
      if eq_null groupId then Throw {| message := "invalid group Id." |} else
      match parseInt groupId with
      | None => Throw {| message := "invalid group Id." |}
      | Some groupId' =>
        size ← sizePropsDecoder data;
        Return (VisualConsoleProps.mk id' name' groupId'
                  (nonEmptyStringOrNull backgroundURL)
                  (nonEmptyStringOrNull backgroundColor)
                  (parseBoolean isFavorite)
                  (sz_width size) (sz_height size))
      end
    | _ => Throw {| message := "invalid name." |}
    end
  end.

(** ** [itemInstanceFrom] *)

Definition notFound {A} : Result A := Throw {| message := "item not found" |}.

(** The [switch] compares [type] with each [case] label in turn; the
    element of a new instance is the node [fresh]. *)
Definition itemInstanceFrom `{Imports} (data : UnknownObject) (fresh : Node)
    : Result VisualConsoleItem :=
  match parseIntOr (get data "type") None with
  | None => Throw {| message := "missing item type." |}
  | Some type =>
    if type =? typeTag STATIC_GRAPH then
      p ← staticGraphPropsDecoder data; Return (new StaticGraph p fresh)
    else if type =? typeTag MODULE_GRAPH then notFound
    else if type =? typeTag SIMPLE_VALUE then notFound
    else if type =? typeTag PERCENTILE_BAR then notFound
    else if type =? typeTag LABEL then notFound
    else if type =? typeTag ICON then
      p ← iconPropsDecoder data; Return (new Icon p fresh)
    else if type =? typeTag SIMPLE_VALUE_MAX then notFound
    else if type =? typeTag SIMPLE_VALUE_MIN then notFound
    else if type =? typeTag SIMPLE_VALUE_AVG then notFound
    else if type =? typeTag PERCENTILE_BUBBLE then notFound
    else if type =? typeTag SERVICE then notFound
    else if type =? typeTag GROUP_ITEM then
      p ← groupPropsDecoder data; Return (new Group p fresh)
    else if type =? typeTag BOX_ITEM then notFound
    else if type =? typeTag LINE_ITEM then notFound
    else if type =? typeTag AUTO_SLA_GRAPH then notFound
    else if type =? typeTag CIRCULAR_PROGRESS_BAR then notFound
    else if type =? typeTag CIRCULAR_INTERIOR_PROGRESS_BAR then notFound
    else if type =? typeTag DONUT_GRAPH then notFound
    else if type =? typeTag BARS_GRAPH then notFound
    else if type =? typeTag CLOCK then notFound
    else if type =? typeTag COLOR_CLOUD then
      p ← colorCloudPropsDecoder data; Return (new ColorCloud p fresh)
    else notFound
  end.

(** ** The constructor *)

(** The comparator handed to [sort]. *)
Definition compareFn (a b : VisualConsoleItem) : Z :=
  if VisualConsoleItemProps.isOnTop (props a)
     && negb (VisualConsoleItemProps.isOnTop (props b)) then 1
  else if negb (VisualConsoleItemProps.isOnTop (props a))
          && VisualConsoleItemProps.isOnTop (props b) then -1
  else if VisualConsoleItemProps.id (props a)
          <? VisualConsoleItemProps.id (props b) then 1
  else -1.

(** [Array.prototype.sort(comparefn)].  The language leaves the algorithm
    to the engine; this is a stable insertion sort, which moves an
    element [x] past [y] exactly when [comparefn(x, y) > 0].  Engines
    agree with it on what they produce up to the order of elements the
    comparator does not tell apart: the result is a rearrangement that
    the comparator accepts.  The relative order of such elements is the
    engine's choice. *)
Fixpoint sort_insert {A} (comparefn : A → A → Z) (x : A) (l : list A)
    : list A :=
  match l with
  | [] => [x]
  | y :: l' =>
      if 0 <? comparefn x y then y :: sort_insert comparefn x l'
      else x :: y :: l'
  end.

Fixpoint sort {A} (comparefn : A → A → Z) (l : list A) : list A :=
  match l with
  | [] => []
  | x :: l' => sort_insert comparefn x (sort comparefn l')
  end.

(** What runs besides the console object: the lines written with
    [console.log] and the next node the document hands out. *)
Record Run := {
  this : VisualConsole;
  consoleLog : list string;
  nextNode : Node
}.

(** The body of [items.forEach].  The instance pushed to [elements] is the
    object that [onClick] then extends, so the collection holds it with
    its handler. *)
Definition forEachItem `{Imports} (r : Run) (item : UnknownObject) : Run :=
  match itemInstanceFrom item (nextNode r) with
  | Return itemInstance =>
      let itemInstance := onClick LogClicked itemInstance in
      {| this :=
           {| containerRef :=
                append (elementRef itemInstance) (containerRef (this r));
              _props := _props (this r);
              elements := elements (this r) ++ [itemInstance] |};
         consoleLog := consoleLog r;
         nextNode := S (nextNode r) |}
  | Throw error =>
      {| this := this r;
         consoleLog :=
           consoleLog r
           ++ ["Error creating a new element: " +:+ message error];
         nextNode := nextNode r |}
  end.

(** The state after the first render and the [forEach], before the sort. *)
Definition constructItems `{Imports} (container : HTMLElement)
    (props : VisualConsoleProps) (items : list UnknownObject)
    (log : list string) (fresh : Node) : Run :=
  let this0 :=
    render None
      {| containerRef := container; _props := props; elements := [] |} in
  foldl forEachItem
    {| this := this0; consoleLog := log; nextNode := fresh |} items.

(** [new VisualConsole(container, props, items)] *)
Definition constructor `{Imports} (container : HTMLElement)
    (props : VisualConsoleProps) (items : list UnknownObject)
    (log : list string) (fresh : Node) : Run :=
  let r := constructItems container props items log fresh in
  {| this :=
       {| containerRef := containerRef (this r);
          _props := _props (this r);
          elements := sort compareFn (elements (this r)) |};
     consoleLog := consoleLog r;
     nextNode := nextNode r |}.

(** The elements of the instances in the collection, in collection
    order. *)
Definition stackingOrder (this : VisualConsole) : list Node :=
  elementRef <$> elements this.

(** ** A concrete set of imports, to run the console on examples *)

Module Sample.

(** White space that [parseInt] skips (the ASCII part). *)
Definition isSpace (c : ascii) : bool :=
  bool_decide (Ascii.N_of_ascii c ∈ [9; 10; 11; 12; 13; 32]%N).

Fixpoint skipSpaces (s : string) : string :=
  match s with
  | String c s' => if isSpace c then skipSpaces s' else s
  | EmptyString => s
  end.

(** The value of a digit in the given radix (10 or 16). *)
Definition digit (radix : Z) (c : ascii) : option Z :=
  let n := Z.of_N (Ascii.N_of_ascii c) in
  let d :=
    if (48 <=? n) && (n <=? 57) then Some (n - 48)
    else if (97 <=? n) && (n <=? 102) then Some (n - 87)
    else if (65 <=? n) && (n <=? 70) then Some (n - 55)
    else None in
  d ≫= λ v, if v <? radix then Some v else None.

(** The longest prefix of digits; [None] when it is empty. *)
Fixpoint digits (radix : Z) (acc : option Z) (s : string) : option Z :=
  match s with
  | String c s' =>
      match digit radix c with
      | Some d => digits radix (Some (default 0 acc * radix + d)) s'
      | None => acc
      end
  | EmptyString => acc
  end.

(** [parseInt(string)] without a radix argument: white space, a sign,
    an optional [0x] prefix, then digits. *)
Definition parseIntString (s : string) : option Z :=
  let s := skipSpaces s in
  let '(sign, s) :=
    match s with
    | String "-" s' => (-1, s')
    | String "+" s' => (1, s')
    | _ => (1, s)
    end in
  let '(radix, s) :=
    match s with
    | String "0" (String "x" s') | String "0" (String "X" s') => (16, s')
    | _ => (10, s)
    end in
  (λ n, sign * n) <$> digits radix None s.

(** [parseInt(v)] converts [v] to a string first. *)
Definition parseInt (v : JSValue) : option Z :=
  match v with
  | JString s => parseIntString s
  | JNumber n => parseIntString (pretty n)
  | JBoolean _ | JNull | JUndefined => None
  end.

(** Modelled from the spec: [parseBoolean] of [./lib], a permissive
    coercion that accepts the boolean [true], a positive number and the
    strings [true] and [1], and is false otherwise. *)
Definition parseBoolean (v : JSValue) : bool :=
  match v with
  | JBoolean b => b
  | JNumber n => 0 <? n
  | JString s => bool_decide (s = "1") || bool_decide (s = "true")
  | _ => false
  end.

(** Modelled from the spec: [sizePropsDecoder] of [./lib]; [width] and
    [height] are required, integer-parseable and non-negative. *)
Definition sizePropsDecoder (data : UnknownObject) : Result Size :=
  let width := get data "width" in
  let height := get data "height" in
  match (if eq_null width then None else parseInt width),
        (if eq_null height then None else parseInt height) with
  | Some w, Some h =>
      if (0 <=? w) && (0 <=? h)
      then Return {| sz_width := w; sz_height := h |}
      else Throw {| message := "invalid size." |}
  | _, _ => Throw {| message := "invalid size." |}
  end.

(** Modelled from the spec: the props decoder of an item variant, kept
    to what every variant has: a required integer [id] and the
    [isOnTop] stacking hint. *)
Definition itemPropsDecoder (data : UnknownObject)
    : Result VisualConsoleItemProps :=
  let id := get data "id" in
  match (if eq_null id then None else parseInt id) with
  | Some n =>
      Return (VisualConsoleItemProps.mk n
                (parseBoolean (get data "isOnTop")))
  | None => Throw {| message := "invalid id." |}
  end.

(** The enumeration members numbered from 0 in declaration order. *)
Definition typeTag (t : VisualConsoleItemType) : Z :=
  match t with
  | STATIC_GRAPH => 0 | MODULE_GRAPH => 1 | SIMPLE_VALUE => 2
  | PERCENTILE_BAR => 3 | LABEL => 4 | ICON => 5 | SIMPLE_VALUE_MAX => 6
  | SIMPLE_VALUE_MIN => 7 | SIMPLE_VALUE_AVG => 8 | PERCENTILE_BUBBLE => 9
  | SERVICE => 10 | GROUP_ITEM => 11 | BOX_ITEM => 12 | LINE_ITEM => 13
  | AUTO_SLA_GRAPH => 14 | CIRCULAR_PROGRESS_BAR => 15
  | CIRCULAR_INTERIOR_PROGRESS_BAR => 16 | DONUT_GRAPH => 17
  | BARS_GRAPH => 18 | CLOCK => 19 | COLOR_CLOUD => 20
  end.

Definition imports : Imports :=
  Build_Imports parseInt parseBoolean sizePropsDecoder typeTag
    itemPropsDecoder itemPropsDecoder itemPropsDecoder itemPropsDecoder.

(** An empty surface. *)
Definition surface : HTMLElement :=
  {| style := Style.mk None None None None; childNodes := [];
     mutations := [] |}.

Definition consoleProps : VisualConsoleProps :=
  VisualConsoleProps.mk 1 "console" 0 None (Some "white") false 800 600.

(** A raw item descriptor with the given [type], [id] and [isOnTop]. *)
Definition descriptor (type id : Z) (isOnTop : bool) : UnknownObject :=
  {[ "type" := JNumber type; "id" := JNumber id;
     "isOnTop" := JBoolean isOnTop ]}.

(** A raw console descriptor. *)
Definition rawConsole : UnknownObject :=
  {[ "id" := JString "7"; "name" := JString "console";
     "groupId" := JNumber 3; "backgroundURL" := JString "";
     "backgroundColor" := JString "white"; "isFavorite" := JString "1";
     "width" := JNumber 800; "height" := JString "600px" ]}.

End Sample.

(** A console over the empty surface, with no items. *)
Definition Sample_console : VisualConsole :=
  {| containerRef := Sample.surface; _props := Sample.consoleProps;
     elements := [] |}.

(** The props of the sample console with another background colour. *)
Definition Sample_recoloured : VisualConsoleProps :=
  VisualConsoleProps.mk 1 "console" 0 None (Some "black") false 800 600.

(** The props of the sample console with another identity. *)
Definition Sample_renamed : VisualConsoleProps :=
  VisualConsoleProps.mk 2 "other" 5 None (Some "white") true 800 600.

(** ** Reading the stacking keys *)

Definition itemId (it : VisualConsoleItem) : Z :=
  VisualConsoleItemProps.id (props it).

Definition itemOnTop (it : VisualConsoleItem) : bool :=
  VisualConsoleItemProps.isOnTop (props it).

(** [comparefn(a, b) <= 0]: the comparator does not ask for [a] to be
    moved after [b]. *)
Definition precedes {A} (comparefn : A → A → Z) (a b : A) : Prop :=
  comparefn a b ≤ 0.

(** The instances A, B and C of the stacking example. *)
Definition item (id : Z) (isOnTop : bool) (el : Node) : VisualConsoleItem :=
  {| class := Icon; props := VisualConsoleItemProps.mk id isOnTop;
     elementRef := el; clickHandlers := [LogClicked] |}.
Definition itemA : VisualConsoleItem := item 1 false 0.
Definition itemB : VisualConsoleItem := item 2 false 1.
Definition itemC : VisualConsoleItem := item 3 true 2.

(** ** Reading the outcome of the factory *)

(** The class and props of the instance the factory returns for a
    descriptor, and the error it throws otherwise. *)
Definition instanceOf `{Imports} (data : UnknownObject)
    : option (ItemClass * VisualConsoleItemProps) :=
  match itemInstanceFrom data 0%nat with
  | Return it => Some (class it, props it)
  | Throw _ => None
  end.

Definition errorOf `{Imports} (data : UnknownObject) : option TypeError :=
  match itemInstanceFrom data 0%nat with
  | Return _ => None
  | Throw e => Some e
  end.

(** The instance as the collection holds it: element [el], one relay. *)
Definition collected (el : Node) (cp : ItemClass * VisualConsoleItemProps)
    : VisualConsoleItem :=
  onClick LogClicked (new cp.1 cp.2 el).

(** [el.append(n)] for each node of [ns] in turn. *)
Definition appendAll (el : HTMLElement) (ns : list Node) : HTMLElement :=
  foldl (λ el n, append n el) el ns.

(** The line logged for a failed descriptor. *)
Definition errorLine (e : TypeError) : string :=
  "Error creating a new element: " +:+ message e.

(** Two icons, ids 1 and 2, neither on top. *)
Definition Sample_twoIcons : Run :=
  @constructor Sample.imports Sample.surface Sample.consoleProps
    [Sample.descriptor 5 1 false; Sample.descriptor 5 2 false] [] 0%nat.

(** An icon, a descriptor of unknown type 999, and a group. *)
Definition Sample_endToEnd : list UnknownObject :=
  [Sample.descriptor 5 1 false; Sample.descriptor 999 2 false;
   Sample.descriptor 11 3 false].

(** ** [remove] *)

(** [remove()]: every instance of the collection is removed in collection
    order, then the collection is emptied.  The [remove] of an item
    belongs to the item classes; [itemRemove] is what it does to the
    container. *)
Definition remove (itemRemove : VisualConsoleItem → HTMLElement → HTMLElement)
    (this : VisualConsole) : VisualConsole :=
  {| containerRef :=
       foldl (λ c e, itemRemove e c) (containerRef this) (elements this);
     _props := _props this;
     elements := [] |}.

(** An item [remove] that detaches the element the item owns. *)
Definition detach (e : VisualConsoleItem) (c : HTMLElement) : HTMLElement :=
  {| style := style c;
     childNodes := filter (λ n, n ≠ elementRef e) (childNodes c);
     mutations := mutations c |}.

(** ** Reading the surface and the factory *)

(** The style a full render writes for given props. *)
Definition styleFor (p : VisualConsoleProps) : Style.t :=
  Style.mk (VisualConsoleProps.backgroundURL p)
    (VisualConsoleProps.backgroundColor p)
    (Some (px (VisualConsoleProps.width p)))
    (Some (px (VisualConsoleProps.height p))).

(** The props decoder the factory runs for each class it instantiates. *)
Definition decoderOf `{Imports} (c : ItemClass)
    : UnknownObject → Result VisualConsoleItemProps :=
  match c with
  | StaticGraph => staticGraphPropsDecoder
  | Icon => iconPropsDecoder
  | Group => groupPropsDecoder
  | ColorCloud => colorCloudPropsDecoder
  end.

(** A sequence of assignments to [props], in order. *)
Definition setAll (updates : list VisualConsoleProps) (this : VisualConsole)
    : VisualConsole :=
  foldl (λ t p, set_props p t) this updates.

(** A raw console descriptor without a [width]. *)
Definition Sample_noWidth : UnknownObject := delete "width" Sample.rawConsole.

(** The sample surface with two children already in place. *)
Definition Sample_busySurface : HTMLElement :=
  {| style := Style.mk None None None None; childNodes := [0; 1]%nat;
     mutations := [] |}.


(** The props of the sample console with a background image. *)
Definition Sample_withImage : VisualConsoleProps :=
  VisualConsoleProps.mk 1 "console" 0 (Some "bg.png") (Some "white") false
    800 600.

(** ** Reading the writes *)

(** The value last assigned to a style attribute, read off a sequence of
    mutations; [None] when the attribute was never written. *)
Fixpoint lastWrite (p : Style.property) (ms : list Mutation)
    : option (option string) :=
  match ms with
  | [] => None
  | m :: ms' =>
      match lastWrite p ms' with
      | Some v => Some v
      | None =>
          match m with
          | SetStyle q v => if decide (q = p) then Some v else None
          | Append _ => None
          end
      end
  end.

(** The value [render] assigns to a style attribute for given props. *)
Definition assigned (p : Style.property) (q : VisualConsoleProps)
    : option string :=
  match p with
  | Style.BackgroundImage => VisualConsoleProps.backgroundURL q
  | Style.BackgroundColor => VisualConsoleProps.backgroundColor q
  | Style.Width => Some (px (VisualConsoleProps.width q))
  | Style.Height => Some (px (VisualConsoleProps.height q))
  end.

(** The last write of every style attribute is the one [render] makes
    for the stored props. *)
Definition inSync (this : VisualConsole) : Prop :=
  ∀ p, lastWrite p (mutations (containerRef this))
       = Some (assigned p (get_props this)).

(** * Properties *)

(** ** The diffed render *)

Lemma mutations_foldl (el : HTMLElement) (ms : list Mutation) :
  mutations (foldl applyMutation el ms) = mutations el ++ ms.
Proof.
  revert el. induction ms as [|m ms IH]; intros el; simpl.
  - by rewrite app_nil_r.
  - rewrite IH. destruct m; simpl; by rewrite <- app_assoc.
Qed.

(** The setter of the source applies exactly the patches of the diff. *)
Lemma set_props_spec_eq (next : VisualConsoleProps) (this : VisualConsole) :
  set_props next this = setProps_spec next this.
Proof.
  unfold set_props, setProps_spec, render, patches, sizeChanged, strict_ne,
    resizeElement, with_container, get_props.
  destruct this as [c prev els]; simpl.
  destruct next as [i n g u col f w h], prev as [i' n' g' u' col' f' w' h'];
    simpl.
  repeat case_bool_decide; simpl;
    destruct (Z.eqb_spec w' w), (Z.eqb_spec h' h); simpl;
    try reflexivity; exfalso; tauto.
Qed.

Lemma set_props_mutations (next : VisualConsoleProps) (this : VisualConsole) :
  mutations (containerRef (set_props next this))
  = mutations (containerRef this) ++ patches (get_props this) next.
Proof. rewrite set_props_spec_eq. simpl. apply mutations_foldl. Qed.

Lemma set_props_stored (next : VisualConsoleProps) (this : VisualConsole) :
  get_props (set_props next this) = next
  ∧ elements (set_props next this) = elements this.
Proof. by rewrite set_props_spec_eq. Qed.

Lemma childNodes_foldl_style (el : HTMLElement) (ms : list Mutation) :
  (∀ m, m ∈ ms → ∃ p v, m = SetStyle p v) →
  childNodes (foldl applyMutation el ms) = childNodes el.
Proof.
  revert el. induction ms as [|m ms IH]; intros el Hs; simpl; [done|].
  rewrite IH.
  - destruct (Hs m) as (p & v & ->); [left|done].
  - intros m' Hm'. apply Hs. by right.
Qed.

Lemma patches_are_style (prev next : VisualConsoleProps) (m : Mutation) :
  m ∈ patches prev next → ∃ p v, m = SetStyle p v.
Proof.
  unfold patches. intros Hm.
  repeat case_bool_decide; simpl in Hm;
    repeat (apply elem_of_cons in Hm as [-> | Hm]; [eauto|]);
    by apply elem_of_nil in Hm.
Qed.

Lemma set_props_childNodes (next : VisualConsoleProps) (this : VisualConsole) :
  childNodes (containerRef (set_props next this))
  = childNodes (containerRef this).
Proof.
  rewrite set_props_spec_eq. simpl.
  apply childNodes_foldl_style, patches_are_style.
Qed.

(** With the four visual fields unchanged the diff is empty. *)
Lemma patches_same_visual (prev next : VisualConsoleProps) :
  VisualConsoleProps.backgroundURL next = VisualConsoleProps.backgroundURL prev →
  VisualConsoleProps.backgroundColor next
  = VisualConsoleProps.backgroundColor prev →
  VisualConsoleProps.width next = VisualConsoleProps.width prev →
  VisualConsoleProps.height next = VisualConsoleProps.height prev →
  patches prev next = [].
Proof.
  intros Hu Hc Hw Hh. unfold patches.
  rewrite !bool_decide_eq_true_2; auto.
Qed.

(** C3: when the new props differ from the stored ones only in
    [backgroundColor] ([backgroundURL], [width] and [height] equal),
    setting them performs exactly one mutation of the surface, the write
    of its background-colour style; background image, width and height
    are left as they were. *)
Theorem setProps_backgroundColor_only
    (this : VisualConsole) (next : VisualConsoleProps) :
  VisualConsoleProps.backgroundColor next
  ≠ VisualConsoleProps.backgroundColor (get_props this) →
  VisualConsoleProps.backgroundURL next
  = VisualConsoleProps.backgroundURL (get_props this) →
  VisualConsoleProps.width next = VisualConsoleProps.width (get_props this) →
  VisualConsoleProps.height next = VisualConsoleProps.height (get_props this) →
  mutations (containerRef (set_props next this))
  = mutations (containerRef this)
    ++ [SetStyle Style.BackgroundColor (VisualConsoleProps.backgroundColor next)]
  ∧ Style.backgroundColor (style (containerRef (set_props next this)))
    = VisualConsoleProps.backgroundColor next
  ∧ Style.backgroundImage (style (containerRef (set_props next this)))
    = Style.backgroundImage (style (containerRef this))
  ∧ Style.width (style (containerRef (set_props next this)))
    = Style.width (style (containerRef this))
  ∧ Style.height (style (containerRef (set_props next this)))
    = Style.height (style (containerRef this)).
Proof.
  intros Hc Hu Hw Hh.
  assert (patches (get_props this) next
          = [SetStyle Style.BackgroundColor
               (VisualConsoleProps.backgroundColor next)]) as Hp.
  { unfold patches.
    rewrite (bool_decide_eq_true_2 (_ = VisualConsoleProps.backgroundURL _))
      by done.
    rewrite (bool_decide_eq_false_2
               (_ = VisualConsoleProps.backgroundColor _)) by congruence.
    rewrite bool_decide_eq_true_2 by done. reflexivity. }
  rewrite set_props_mutations, set_props_spec_eq. unfold setProps_spec.
  rewrite Hp. simpl. done.
Qed.

Lemma setProps_backgroundColor_only_witness :
  mutations (containerRef (set_props Sample_recoloured Sample_console))
  = [SetStyle Style.BackgroundColor (Some "black")].
Proof.
  apply (setProps_backgroundColor_only Sample_console Sample_recoloured).
  - simpl. discriminate.
  - reflexivity.
  - reflexivity.
  - reflexivity.
Defined.

(** C4: setting props whose [width], [height], [backgroundURL] and
    [backgroundColor] equal the stored ones performs no mutation of the
    surface: no style write of any of the four attributes is made. *)
Theorem setProps_unchanged_no_patch
    (this : VisualConsole) (next : VisualConsoleProps) :
  VisualConsoleProps.width next = VisualConsoleProps.width (get_props this) →
  VisualConsoleProps.height next = VisualConsoleProps.height (get_props this) →
  VisualConsoleProps.backgroundURL next
  = VisualConsoleProps.backgroundURL (get_props this) →
  VisualConsoleProps.backgroundColor next
  = VisualConsoleProps.backgroundColor (get_props this) →
  patches (get_props this) next = []
  ∧ mutations (containerRef (set_props next this))
    = mutations (containerRef this)
  ∧ style (containerRef (set_props next this)) = style (containerRef this).
Proof.
  intros Hw Hh Hu Hc.
  pose proof (patches_same_visual (get_props this) next Hu Hc Hw Hh) as Hp.
  split; [done|].
  rewrite set_props_mutations, set_props_spec_eq. unfold setProps_spec.
  rewrite Hp, app_nil_r. done.
Qed.

Lemma setProps_unchanged_no_patch_witness :
  mutations (containerRef (set_props Sample.consoleProps Sample_console)) = [].
Proof.
  apply (setProps_unchanged_no_patch Sample_console Sample.consoleProps);
    reflexivity.
Defined.

(** C10: when the new props differ from the stored ones only in [id],
    [name], [groupId] or [isFavorite], setting them stores the new record
    and leaves the surface as it was: no mutation is performed. *)
Theorem setProps_identity_fields_absorbed
    (this : VisualConsole) (next : VisualConsoleProps) :
  VisualConsoleProps.backgroundURL next
  = VisualConsoleProps.backgroundURL (get_props this) →
  VisualConsoleProps.backgroundColor next
  = VisualConsoleProps.backgroundColor (get_props this) →
  VisualConsoleProps.width next = VisualConsoleProps.width (get_props this) →
  VisualConsoleProps.height next = VisualConsoleProps.height (get_props this) →
  get_props (set_props next this) = next
  ∧ containerRef (set_props next this) = containerRef this
  ∧ elements (set_props next this) = elements this.
Proof.
  intros Hu Hc Hw Hh.
  rewrite set_props_spec_eq. unfold setProps_spec.
  rewrite (patches_same_visual (get_props this) next Hu Hc Hw Hh). done.
Qed.

Lemma setProps_identity_fields_absorbed_witness :
  get_props (set_props Sample_renamed Sample_console) = Sample_renamed
  ∧ containerRef (set_props Sample_renamed Sample_console) = Sample.surface
  ∧ elements (set_props Sample_renamed Sample_console) = [].
Proof.
  apply (setProps_identity_fields_absorbed Sample_console Sample_renamed);
    reflexivity.
Defined.

(** C8: [resize(w, h)] is the props setter applied to the current props
    with [width] and [height] replaced: the other fields of the stored
    props are kept, and the mutations it performs are those of the diff,
    all of them writes of sizing attributes (none when the size is the
    stored one), so the background styles and the children are kept. *)
Theorem resize_refines_setProps (this : VisualConsole) (w h : Z) :
  resize w h this = resize_spec w h this
  ∧ get_props (resize w h this)
    = VisualConsoleProps.mk
        (VisualConsoleProps.id (get_props this))
        (VisualConsoleProps.name (get_props this))
        (VisualConsoleProps.groupId (get_props this))
        (VisualConsoleProps.backgroundURL (get_props this))
        (VisualConsoleProps.backgroundColor (get_props this))
        (VisualConsoleProps.isFavorite (get_props this)) w h
  ∧ elements (resize w h this) = elements this
  ∧ (∃ ws,
       mutations (containerRef (resize w h this))
       = mutations (containerRef this) ++ ws
       ∧ ws = patches (get_props this) (get_props (resize w h this))
       ∧ forallb isSizing ws = true
       ∧ (w = VisualConsoleProps.width (get_props this) →
          h = VisualConsoleProps.height (get_props this) → ws = []))
  ∧ Style.backgroundImage (style (containerRef (resize w h this)))
    = Style.backgroundImage (style (containerRef this))
  ∧ Style.backgroundColor (style (containerRef (resize w h this)))
    = Style.backgroundColor (style (containerRef this))
  ∧ childNodes (containerRef (resize w h this))
    = childNodes (containerRef this).
Proof.
  unfold resize, resize_spec.
  set (p := get_props this).
  set (p' := VisualConsoleProps.with_size p w h).
  assert (patches p p'
          = if bool_decide (VisualConsoleProps.width p = w
                            ∧ VisualConsoleProps.height p = h)
            then []
            else [SetStyle Style.Width (Some (px w));
                  SetStyle Style.Height (Some (px h))]) as Hp.
  { unfold patches, p'. simpl.
    rewrite (bool_decide_eq_true_2 (_ = VisualConsoleProps.backgroundURL _))
      by done.
    rewrite (bool_decide_eq_true_2
               (_ = VisualConsoleProps.backgroundColor _)) by done.
    reflexivity. }
  split; [apply set_props_spec_eq|].
  split; [apply set_props_stored|].
  split; [apply set_props_stored|].
  split.
  - exists (patches p p'). split; [apply set_props_mutations|].
    split; [by rewrite (proj1 (set_props_stored p' this))|].
    rewrite Hp. split.
    + by case_bool_decide.
    + intros -> ->. by rewrite bool_decide_eq_true_2.
  - rewrite set_props_childNodes, set_props_spec_eq. unfold setProps_spec.
    fold p. rewrite Hp. by case_bool_decide.
Qed.

(** ** The sort *)

Section sort_correct.
Context {A : Type} (comparefn : A → A → Z).

Lemma sort_insert_Permutation (x : A) (l : list A) :
  sort_insert comparefn x l ≡ₚ x :: l.
Proof.
  induction l as [|y l IH]; simpl; [done|].
  destruct (0 <? comparefn x y); [|done].
  rewrite IH. apply Permutation_swap.
Qed.

Lemma sort_Permutation (l : list A) : sort comparefn l ≡ₚ l.
Proof.
  induction l as [|x l IH]; simpl; [done|].
  by rewrite sort_insert_Permutation, IH.
Qed.

(** Whenever the comparator asks to move [a] after [b], it lets [b]
    stay before [a]. *)
Hypothesis comparefn_total :
  ∀ a b, 0 < comparefn a b → precedes comparefn b a.

Lemma sort_insert_HdRel (x y : A) (l : list A) :
  precedes comparefn y x →
  HdRel (precedes comparefn) y l →
  HdRel (precedes comparefn) y (sort_insert comparefn x l).
Proof.
  intros Hyx Hy. destruct l as [|z l]; simpl.
  - by constructor.
  - destruct (0 <? comparefn x z); constructor; [|done].
    by inversion Hy.
Qed.

Lemma sort_insert_Sorted (x : A) (l : list A) :
  Sorted (precedes comparefn) l →
  Sorted (precedes comparefn) (sort_insert comparefn x l).
Proof.
  induction 1 as [|y l Hl IH Hy]; simpl.
  - by repeat constructor.
  - destruct (Z.ltb_spec 0 (comparefn x y)) as [Hlt|Hge].
    + constructor; [done|].
      apply sort_insert_HdRel; [|done]. by apply comparefn_total.
    + constructor; [by constructor|]. by constructor.
Qed.

Lemma sort_Sorted (l : list A) :
  Sorted (precedes comparefn) (sort comparefn l).
Proof.
  induction l as [|x l IH]; simpl; [constructor|].
  by apply sort_insert_Sorted.
Qed.
End sort_correct.

Lemma StronglySorted_lookup {A} (R : relation A) (l : list A)
    (i j : nat) (a b : A) :
  StronglySorted R l → (i < j)%nat →
  l !! i = Some a → l !! j = Some b → R a b.
Proof.
  intros Hs Hij Ha Hb.
  rewrite <- (take_drop j l) in Hs.
  apply (StronglySorted_app_1_elem_of _ _ _ a b) in Hs; [done| |].
  - apply list_elem_of_lookup. exists i. by rewrite lookup_take_lt.
  - apply list_elem_of_lookup. exists 0%nat.
    by rewrite lookup_drop, Nat.add_0_r.
Qed.

(** ** The stacking comparator *)

(** Case analysis on hypotheses about the two keys. *)
Ltac by_keys :=
  solve [ intuition (try discriminate; try congruence; try lia) ].

Lemma compareFn_cases (a b : VisualConsoleItem) :
  compareFn a b = 1 ∨ compareFn a b = -1.
Proof. unfold compareFn. repeat case_match; auto. Qed.

(** What the comparator accepts, in terms of the two keys. *)
Lemma precedes_compareFn (a b : VisualConsoleItem) :
  precedes compareFn a b ↔
  (itemOnTop a = false ∧ itemOnTop b = true)
  ∨ (itemOnTop a = itemOnTop b ∧ itemId b ≤ itemId a).
Proof.
  unfold precedes, compareFn, itemOnTop, itemId.
  destruct (VisualConsoleItemProps.isOnTop (props a)),
    (VisualConsoleItemProps.isOnTop (props b)); simpl;
    try destruct (Z.ltb_spec (VisualConsoleItemProps.id (props a))
                    (VisualConsoleItemProps.id (props b)));
    split; intros; try lia; by_keys.
Qed.

Lemma compareFn_total (a b : VisualConsoleItem) :
  0 < compareFn a b → precedes compareFn b a.
Proof.
  intros Hab. apply precedes_compareFn.
  assert (¬ precedes compareFn a b) as Hn by (unfold precedes; lia).
  rewrite precedes_compareFn in Hn.
  destruct (itemOnTop a), (itemOnTop b); by_keys.
Qed.

#[local] Instance precedes_compareFn_trans : Transitive (precedes compareFn).
Proof.
  intros a b c. rewrite !precedes_compareFn.
  destruct (itemOnTop a), (itemOnTop b), (itemOnTop c); by_keys.
Qed.

Lemma sort_compareFn_StronglySorted (l : list VisualConsoleItem) :
  StronglySorted (precedes compareFn) (sort compareFn l).
Proof.
  apply Sorted_StronglySorted; [apply _|].
  apply sort_Sorted, compareFn_total.
Qed.

(** With pairwise distinct ids there is one order the comparator accepts:
    whatever algorithm the engine runs, its result is the list computed
    by [sort]. *)
Lemma sort_compareFn_unique (l r : list VisualConsoleItem) :
  NoDup (itemId <$> l) →
  r ≡ₚ l →
  StronglySorted (precedes compareFn) r →
  r = sort compareFn l.
Proof.
  intros Hnd Hp Hs.
  apply (StronglySorted_unique_strong (precedes compareFn));
    [|done|apply sort_compareFn_StronglySorted|by rewrite sort_Permutation].
  intros x y Hx Hy Hxy Hyx.
  rewrite Hp in Hx. rewrite sort_Permutation in Hy.
  assert (itemId x = itemId y) as Hid.
  { rewrite precedes_compareFn in Hxy, Hyx.
    destruct (itemOnTop x), (itemOnTop y); by_keys. }
  apply list_elem_of_lookup in Hx as [i Hi], Hy as [j Hj].
  assert (i = j) as ->; [|congruence].
  apply (NoDup_lookup (itemId <$> l) i j (itemId x)); [done|..].
  - by rewrite list_lookup_fmap, Hi.
  - by rewrite list_lookup_fmap, Hj, Hid.
Qed.

(** C2: for instances with pairwise distinct ids, the sort of the
    collection is a rearrangement of it in which no instance with
    [isOnTop = true] comes before one with [isOnTop = false], and in
    which, of two instances with the same [isOnTop], the one with the
    larger id comes first; it is the only rearrangement the comparator
    accepts.  For A(false, 1), B(false, 2), C(true, 3), in whatever order
    they are pushed, the result is B, A, C. *)
Theorem sort_stacking_order (l : list VisualConsoleItem) :
  NoDup (itemId <$> l) →
  sort compareFn l ≡ₚ l
  ∧ (∀ (i j : nat) (a b : VisualConsoleItem),
       (i < j)%nat →
       sort compareFn l !! i = Some a →
       sort compareFn l !! j = Some b →
       (itemOnTop a = true → itemOnTop b = true)
       ∧ (itemOnTop a = itemOnTop b → itemId b < itemId a))
  ∧ (∀ r, r ≡ₚ l → StronglySorted (precedes compareFn) r →
          r = sort compareFn l)
  ∧ (∀ l', l' ≡ₚ [itemA; itemB; itemC] →
           sort compareFn l' = [itemB; itemA; itemC]).
Proof.
  intros Hnd. split; [apply sort_Permutation|].
  split; [|split; [intros r; by apply sort_compareFn_unique|]]; cycle 1.
  { intros l' Hl'.
    change [itemB; itemA; itemC] with (sort compareFn [itemA; itemB; itemC]).
    apply sort_compareFn_unique.
    - apply (bool_decide_unpack _). vm_compute. exact I.
    - by rewrite sort_Permutation.
    - apply sort_compareFn_StronglySorted. }
  intros i j a b Hij Ha Hb.
  pose proof (StronglySorted_lookup _ _ i j a b
                (sort_compareFn_StronglySorted l) Hij Ha Hb) as Hab.
  assert (itemId a ≠ itemId b) as Hne.
  { intros Heq.
    assert (NoDup (itemId <$> sort compareFn l)) as Hnd'
      by (by rewrite sort_Permutation).
    assert (i = j); [|lia].
    apply (NoDup_lookup _ i j (itemId a) Hnd').
    - by rewrite list_lookup_fmap, Ha.
    - by rewrite list_lookup_fmap, Hb, Heq. }
  apply precedes_compareFn in Hab.
  destruct (itemOnTop a), (itemOnTop b); by_keys.
Qed.

Lemma sort_stacking_order_witness :
  sort compareFn [itemC; itemA; itemB] ≡ₚ [itemC; itemA; itemB]
  ∧ (∀ (i j : nat) (a b : VisualConsoleItem),
       (i < j)%nat →
       sort compareFn [itemC; itemA; itemB] !! i = Some a →
       sort compareFn [itemC; itemA; itemB] !! j = Some b →
       (itemOnTop a = true → itemOnTop b = true)
       ∧ (itemOnTop a = itemOnTop b → itemId b < itemId a))
  ∧ (∀ r, r ≡ₚ [itemC; itemA; itemB] →
          StronglySorted (precedes compareFn) r →
          r = sort compareFn [itemC; itemA; itemB])
  ∧ (∀ l', l' ≡ₚ [itemA; itemB; itemC] →
           sort compareFn l' = [itemB; itemA; itemC]).
Proof.
  apply (sort_stacking_order [itemC; itemA; itemB]).
  apply (bool_decide_unpack _). vm_compute. exact I.
Defined.

(** C9: for two instances with equal [isOnTop] and equal id the
    comparator answers -1 in both argument orders; it never answers 0.
    Both orders of the two instances are therefore accepted by it, and
    two distinct instances can collide in this way: the comparator is not
    antisymmetric and leaves their relative order open. *)
Theorem compareFn_equal_keys (a b : VisualConsoleItem) :
  itemOnTop a = itemOnTop b →
  itemId a = itemId b →
  compareFn a b = -1 ∧ compareFn b a = -1
  ∧ (∀ x y : VisualConsoleItem, compareFn x y ≠ 0)
  ∧ StronglySorted (precedes compareFn) [a; b]
  ∧ StronglySorted (precedes compareFn) [b; a]
  ∧ ¬ AntiSymm (=) (precedes compareFn).
Proof.
  intros Htop Hid.
  assert (∀ x y, itemOnTop x = itemOnTop y → itemId x = itemId y →
                 compareFn x y = -1) as Heq.
  { intros x y. unfold itemOnTop, itemId, compareFn. intros -> ->.
    rewrite Z.ltb_irrefl.
    by destruct (VisualConsoleItemProps.isOnTop (props y)). }
  pose proof (Heq a b Htop Hid) as Hab.
  pose proof (Heq b a (eq_sym Htop) (eq_sym Hid)) as Hba.
  split; [done|]. split; [done|]. split.
  { intros x y. destruct (compareFn_cases x y); lia. }
  split; [|split].
  - repeat constructor. unfold precedes. lia.
  - repeat constructor. unfold precedes. lia.
  - intros Hanti.
    assert (item 1 false 0 = item 1 false 1) as Habs; [|discriminate].
    apply Hanti; unfold precedes; by rewrite Heq.
Qed.

Lemma compareFn_equal_keys_witness :
  compareFn (item 1 false 0) (item 1 false 1) = -1
  ∧ compareFn (item 1 false 1) (item 1 false 0) = -1.
Proof.
  pose proof (compareFn_equal_keys (item 1 false 0) (item 1 false 1)
                eq_refl eq_refl) as H.
  exact (conj (proj1 H) (proj1 (proj2 H))).
Defined.

(** ** The console props decoder *)

(** C7: a raw console bag whose [id] is null, absent or not
    integer-parseable, whose [name] is not a non-empty string, or whose
    [groupId] is null, absent or not integer-parseable makes the decoder
    throw one of its three validation errors; and whenever the decoder
    returns, the record it returns has every field populated from a
    valid input: decoding yields a whole record or an exception. *)
Theorem visualConsolePropsDecoder_atomic `{Imports} (data : UnknownObject) :
  (eq_null (get data "id") = true
   ∨ parseInt (get data "id") = None
   ∨ (∀ s, get data "name" = JString s → s = "")
   ∨ eq_null (get data "groupId") = true
   ∨ parseInt (get data "groupId") = None →
   ∃ e, visualConsolePropsDecoder data = Throw e
        ∧ message e ∈ ["invalid Id."; "invalid name."; "invalid group Id."])
  ∧ (∀ p, visualConsolePropsDecoder data = Return p →
       eq_null (get data "id") = false
       ∧ parseInt (get data "id") = Some (VisualConsoleProps.id p)
       ∧ get data "name" = JString (VisualConsoleProps.name p)
       ∧ VisualConsoleProps.name p ≠ ""
       ∧ eq_null (get data "groupId") = false
       ∧ parseInt (get data "groupId") = Some (VisualConsoleProps.groupId p)
       ∧ VisualConsoleProps.backgroundURL p
         = nonEmptyStringOrNull (get data "backgroundURL")
       ∧ VisualConsoleProps.backgroundColor p
         = nonEmptyStringOrNull (get data "backgroundColor")
       ∧ VisualConsoleProps.isFavorite p
         = parseBoolean (get data "isFavorite")
       ∧ sizePropsDecoder data
         = Return {| sz_width := VisualConsoleProps.width p;
                     sz_height := VisualConsoleProps.height p |})
  ∧ ((∃ e, visualConsolePropsDecoder data = Throw e)
     ∨ (∃ p, visualConsolePropsDecoder data = Return p)).
Proof.
  unfold visualConsolePropsDecoder.
  split; [|split].
  - intros Hbad.
    destruct (eq_null (get data "id")) eqn:Hid.
    { eexists. split; [done|]. simpl. by left. }
    destruct (parseInt (get data "id")) as [id'|] eqn:Hpid; cycle 1.
    { eexists. split; [done|]. simpl. by left. }
    destruct (get data "name") as [| | | |name'] eqn:Hname;
      try (eexists; split; [done|]; simpl; by right; left).
    case_bool_decide as Hempty.
    { eexists. split; [done|]. simpl. by right; left. }
    destruct (eq_null (get data "groupId")) eqn:Hgid.
    { eexists. split; [done|]. simpl. by right; right; left. }
    destruct (parseInt (get data "groupId")) as [gid'|] eqn:Hpgid.
    + exfalso. destruct Hbad as [?|[?|[Hn|[?|?]]]]; try done.
      by apply Hempty, Hn.
    + eexists. split; [done|]. simpl. by right; right; left.
  - intros p Hp.
    destruct (eq_null (get data "id")); [done|].
    destruct (parseInt (get data "id")) as [id'|]; [|done].
    destruct (get data "name") as [| | | |name']; try done.
    case_bool_decide as Hempty; [done|].
    destruct (eq_null (get data "groupId")); [done|].
    destruct (parseInt (get data "groupId")) as [gid'|]; [|done].
    destruct (sizePropsDecoder data) as [e|[w h]]; [done|].
    simpl in Hp. injection Hp as <-. simpl. done.
  - match goal with
    | |- (∃ e, ?r = _) ∨ _ => destruct r as [e|p]; eauto
    end.
Qed.

Lemma visualConsolePropsDecoder_atomic_witness :
  ∃ e, @visualConsolePropsDecoder Sample.imports
         (delete "groupId" Sample.rawConsole) = Throw e
       ∧ message e ∈ ["invalid Id."; "invalid name."; "invalid group Id."].
Proof.
  apply (@visualConsolePropsDecoder_atomic Sample.imports
           (delete "groupId" Sample.rawConsole)).
  right; right; right; left. reflexivity.
Defined.

(** ** The item factory *)

Lemma itemInstanceFrom_notFound `{Imports} (data : UnknownObject)
    (fresh : Node) (n : Z) :
  parseIntOr (get data "type") None = Some n →
  (∀ v, implemented v ≠ None → typeTag v ≠ n) →
  itemInstanceFrom data fresh = notFound.
Proof.
  intros Hn Hv. unfold itemInstanceFrom. rewrite Hn.
  assert (∀ v, implemented v ≠ None → (n =? typeTag v) = false) as Hf.
  { intros v Hi. apply Z.eqb_neq. intros ->. by apply (Hv v). }
  rewrite (Hf STATIC_GRAPH), (Hf ICON), (Hf GROUP_ITEM), (Hf COLOR_CLOUD)
    by done.
  repeat match goal with
         | |- (if ?b then _ else _) = _ => destruct b; [reflexivity|]
         end.
  reflexivity.
Qed.

(** C6: when the [type] of a raw item descriptor is absent, is not
    integer-parseable, is the number of an enumeration member other than
    STATIC_GRAPH, ICON, GROUP_ITEM and COLOR_CLOUD, or is an integer
    outside the enumeration, the factory throws: it returns no
    instance. *)
Theorem itemInstanceFrom_rejects `{Imports} (data : UnknownObject)
    (fresh : Node) :
  Inj (=) (=) typeTag →
  eq_null (get data "type") = true
  ∨ parseInt (get data "type") = None
  ∨ (∃ v, parseInt (get data "type") = Some (typeTag v)
          ∧ implemented v = None)
  ∨ (∃ n, parseInt (get data "type") = Some n ∧ ∀ v, typeTag v ≠ n) →
  ∃ e, itemInstanceFrom data fresh = Throw e
       ∧ (message e = "missing item type." ∨ message e = "item not found").
Proof.
  intros Hinj Hbad.
  destruct (parseIntOr (get data "type") None) as [n|] eqn:Hn; cycle 1.
  { unfold itemInstanceFrom. rewrite Hn. eexists. split; [done|]. by left. }
  exists {| message := "item not found" |}. split; [|by right].
  apply (itemInstanceFrom_notFound data fresh n Hn).
  unfold parseIntOr in Hn.
  destruct (eq_null (get data "type")); [done|].
  destruct (parseInt (get data "type")) as [n'|]; [|done].
  injection Hn as ->.
  destruct Hbad as [?|[?|[(v & Hv & Hnone)|(m & Hm & Hout)]]]; try done.
  - injection Hv as ->. intros v' Hv' Heq.
    apply Hinj in Heq as ->. done.
  - injection Hm as ->. intros v' _. apply Hout.
Qed.

Lemma itemInstanceFrom_rejects_witness :
  ∃ e, @itemInstanceFrom Sample.imports (Sample.descriptor 999 7 false) 0%nat
       = Throw e
       ∧ (message e = "missing item type." ∨ message e = "item not found").
Proof.
  apply (@itemInstanceFrom_rejects Sample.imports
           (Sample.descriptor 999 7 false) 0%nat).
  - intros x y. destruct x, y; simpl; intros Heq;
      first [reflexivity | discriminate Heq].
  - right; right; right. exists 999. split; [reflexivity|].
    intros v. destruct v; simpl; discriminate.
Defined.

(** ** The constructor *)

(** The outcome of the factory does not depend on the node it is given. *)
Lemma itemInstanceFrom_fresh `{Imports} (data : UnknownObject) (fresh : Node) :
  itemInstanceFrom data fresh
  = match itemInstanceFrom data 0%nat with
    | Return it => Return (new (class it) (props it) fresh)
    | Throw e => Throw e
    end.
Proof.
  unfold itemInstanceFrom, notFound.
  destruct (parseIntOr (get data "type") None) as [n|]; [|done].
  repeat match goal with
         | |- (if ?b then _ else _) = _ => destruct b
         end; try reflexivity.
  - by destruct (staticGraphPropsDecoder data).
  - by destruct (iconPropsDecoder data).
  - by destruct (groupPropsDecoder data).
  - by destruct (colorCloudPropsDecoder data).
Qed.

Lemma forEachItem_Some `{Imports} (r : Run) (item : UnknownObject)
    (cp : ItemClass * VisualConsoleItemProps) :
  instanceOf item = Some cp →
  forEachItem r item
  = {| this :=
         {| containerRef := append (nextNode r) (containerRef (this r));
            _props := _props (this r);
            elements := elements (this r) ++ [collected (nextNode r) cp] |};
       consoleLog := consoleLog r;
       nextNode := S (nextNode r) |}.
Proof.
  unfold instanceOf, forEachItem.
  rewrite (itemInstanceFrom_fresh item (nextNode r)).
  destruct (itemInstanceFrom item 0%nat) as [e|it]; [done|].
  intros [= <-]. reflexivity.
Qed.

Lemma forEachItem_None `{Imports} (r : Run) (item : UnknownObject) :
  instanceOf item = None →
  ∃ e, errorOf item = Some e
       ∧ forEachItem r item
         = {| this := this r;
              consoleLog := consoleLog r ++ [errorLine e];
              nextNode := nextNode r |}.
Proof.
  unfold instanceOf, errorOf, forEachItem.
  rewrite (itemInstanceFrom_fresh item (nextNode r)).
  destruct (itemInstanceFrom item 0%nat) as [e|it]; [|done].
  intros _. by exists e.
Qed.

Lemma instanceOf_errorOf `{Imports} (item : UnknownObject) :
  (is_Some (instanceOf item) ∧ errorOf item = None)
  ∨ (instanceOf item = None ∧ is_Some (errorOf item)).
Proof.
  unfold instanceOf, errorOf.
  destruct (itemInstanceFrom item 0%nat); [right|left]; eauto.
Qed.

Lemma length_instanceOf_errorOf `{Imports} (items : list UnknownObject) :
  (length (omap instanceOf items) + length (omap errorOf items))%nat
  = length items.
Proof.
  induction items as [|item items IH]; csimpl; [done|].
  destruct (instanceOf_errorOf item) as [[[cp ->] ->]|[-> [e ->]]];
    csimpl; lia.
Qed.

(** The loop, from any state: the successes are collected in input
    order, each with the next node, which is appended to the container;
    each failure adds a line to the log. *)
Lemma foldl_forEachItem `{Imports} (items : list UnknownObject) (r : Run) :
  foldl forEachItem r items
  = {| this :=
         {| containerRef :=
              appendAll (containerRef (this r))
                (seq (nextNode r) (length (omap instanceOf items)));
            _props := _props (this r);
            elements :=
              elements (this r)
              ++ imap (λ i, collected (nextNode r + i))
                   (omap instanceOf items) |};
       consoleLog := consoleLog r ++ (errorLine <$> omap errorOf items);
       nextNode := (nextNode r + length (omap instanceOf items))%nat |}.
Proof.
  revert r. induction items as [|item items IH]; intros r; csimpl.
  - destruct r as [[c p els] lg nx]; csimpl.
    by rewrite !app_nil_r, Nat.add_0_r.
  - rewrite IH. destruct (instanceOf item) as [cp|] eqn:Hi.
    + rewrite (forEachItem_Some r item cp Hi).
      assert (errorOf item = None) as ->.
      { destruct (instanceOf_errorOf item) as [[_ ?]|[? _]]; congruence. }
      csimpl. rewrite <- app_assoc, Nat.add_0_r. csimpl.
      f_equal; [|lia]. f_equal. f_equal. f_equal.
      apply imap_ext. intros i x _. csimpl. f_equal. lia.
    + destruct (forEachItem_None r item Hi) as (e & -> & ->).
      csimpl. by rewrite <- app_assoc.
Qed.

Lemma appendAll_mutations (ns : list Node) (el : HTMLElement) :
  mutations (appendAll el ns) = mutations el ++ (Append <$> ns)
  ∧ style (appendAll el ns) = style el.
Proof.
  revert el. induction ns as [|n ns IH]; intros el; csimpl.
  - by rewrite app_nil_r.
  - destruct (IH (append n el)) as [-> ->]. csimpl.
    by rewrite <- app_assoc.
Qed.

Lemma filter_all {A} (P : A → Prop) `{∀ x, Decision (P x)} (l : list A) :
  (∀ x, x ∈ l → P x) → filter P l = l.
Proof.
  induction l as [|x l IH]; intros Hall; [done|].
  rewrite filter_cons_True by (apply Hall; left).
  f_equal. apply IH. intros y Hy. apply Hall. by right.
Qed.

(** Nodes that are new to the container end up after its children, in
    the order they are appended. *)
Lemma appendAll_childNodes (k : nat) (fresh : Node) (el : HTMLElement) :
  (∀ n, n ∈ childNodes el → (n < fresh)%nat) →
  childNodes (appendAll el (seq fresh k)) = childNodes el ++ seq fresh k.
Proof.
  revert fresh el. induction k as [|k IH]; intros fresh el Hlt; csimpl.
  - by rewrite app_nil_r.
  - unfold appendAll in IH. rewrite IH; csimpl.
    + rewrite <- app_assoc. f_equal.
      apply filter_all. intros n Hn. apply Hlt in Hn. lia.
    + intros n [Hn| ->%list_elem_of_singleton]%elem_of_app; [|lia].
      apply list_elem_of_filter in Hn as [_ Hn]. apply Hlt in Hn. lia.
Qed.

Lemma fmap_elementRef_collected (fresh : Node)
    (cps : list (ItemClass * VisualConsoleItemProps)) :
  elementRef <$> imap (λ i, collected (fresh + i)) cps
  = seq fresh (length cps).
Proof.
  revert fresh. induction cps as [|cp cps IH]; intros fresh; csimpl; [done|].
  rewrite Nat.add_0_r. f_equal. rewrite <- IH. f_equal.
  apply imap_ext. intros i x _. csimpl. f_equal. lia.
Qed.

Lemma fmap_props_collected (fresh : Node)
    (cps : list (ItemClass * VisualConsoleItemProps)) :
  (λ it, (class it, props it)) <$> imap (λ i, collected (fresh + i)) cps
  = cps.
Proof.
  revert fresh. induction cps as [|[c p] cps IH]; intros fresh; csimpl; [done|].
  f_equal. rewrite <- (IH (S fresh)) at 2. f_equal.
  apply imap_ext. intros i x _. csimpl. f_equal. lia.
Qed.

(** The first render writes the four attributes and nothing else. *)
Lemma render_None (this : VisualConsole) :
  render None this
  = with_container this
      (foldl applyMutation (containerRef this)
         [SetStyle Style.BackgroundImage
            (VisualConsoleProps.backgroundURL (get_props this));
          SetStyle Style.BackgroundColor
            (VisualConsoleProps.backgroundColor (get_props this));
          SetStyle Style.Width
            (Some (px (VisualConsoleProps.width (get_props this))));
          SetStyle Style.Height
            (Some (px (VisualConsoleProps.height (get_props this))))]).
Proof. reflexivity. Qed.

(** The state the loop leaves, in closed form. *)
Lemma constructItems_eq `{Imports} (container : HTMLElement)
    (props : VisualConsoleProps) (items : list UnknownObject)
    (log : list string) (fresh : Node) :
  constructItems container props items log fresh
  = {| this :=
         {| containerRef :=
              appendAll
                (containerRef
                   (render None
                      {| containerRef := container; _props := props;
                         elements := [] |}))
                (seq fresh (length (omap instanceOf items)));
            _props := props;
            elements := imap (λ i, collected (fresh + i))
                          (omap instanceOf items) |};
       consoleLog := log ++ (errorLine <$> omap errorOf items);
       nextNode := (fresh + length (omap instanceOf items))%nat |}.
Proof. unfold constructItems. by rewrite foldl_forEachItem. Qed.

(** C5: of [N] raw descriptors of which [K] make the factory throw, the
    constructor returns a console whose collection has [N - K]
    instances, one for each descriptor the factory accepts, and logs one
    line per failure; the descriptors after a failing one are processed
    as after any other, so every accepted descriptor, wherever it stands
    in the list, has its instance in the collection. *)
Theorem constructor_skips_failures `{Imports} (container : HTMLElement)
    (cprops : VisualConsoleProps) (items : list UnknownObject)
    (log : list string) (fresh : Node) (K : nat) :
  length (omap errorOf items) = K →
  length (elements (this (constructor container cprops items log fresh)))
  = (length items - K)%nat
  ∧ (λ it, (class it, props it))
      <$> elements (this (constructor container cprops items log fresh))
    ≡ₚ omap instanceOf items
  ∧ consoleLog (constructor container cprops items log fresh)
    = log ++ (errorLine <$> omap errorOf items)
  ∧ (∀ pre post, items = pre ++ post →
       constructItems container cprops items log fresh
       = foldl forEachItem (constructItems container cprops pre log fresh)
           post)
  ∧ (∀ (i : nat) (d : UnknownObject) cp,
       items !! i = Some d → instanceOf d = Some cp →
       ∃ it, it ∈ elements
                    (this (constructor container cprops items log fresh))
             ∧ class it = cp.1 ∧ props it = cp.2).
Proof.
  intros HK.
  assert (elements (this (constructor container cprops items log fresh))
          = sort compareFn
              (imap (λ i, collected (fresh + i)) (omap instanceOf items)))
    as Hels.
  { unfold constructor. by rewrite constructItems_eq. }
  assert (consoleLog (constructor container cprops items log fresh)
          = log ++ (errorLine <$> omap errorOf items)) as Hlog.
  { unfold constructor. by rewrite constructItems_eq. }
  rewrite Hels, Hlog.
  assert ((λ it, (class it, props it))
            <$> sort compareFn
                  (imap (λ i, collected (fresh + i)) (omap instanceOf items))
          ≡ₚ omap instanceOf items) as Hperm.
  { rewrite sort_Permutation. by rewrite fmap_props_collected. }
  split; [|split; [done|split; [done|split]]].
  - rewrite sort_Permutation, length_imap.
    pose proof (length_instanceOf_errorOf items). lia.
  - intros pre post ->. unfold constructItems. by rewrite foldl_app.
  - intros i d cp Hd Hcp.
    assert (cp ∈ omap instanceOf items) as Hin.
    { apply list_elem_of_omap. exists d. split; [|done].
      apply list_elem_of_lookup. by exists i. }
    rewrite <- Hperm in Hin.
    apply list_elem_of_fmap in Hin as (it & -> & Hit). by exists it.
Qed.

Lemma constructor_skips_failures_witness :
  length (elements
            (this (@constructor Sample.imports Sample.surface
                     Sample.consoleProps Sample_endToEnd [] 0%nat)))
  = 2%nat.
Proof.
  apply (@constructor_skips_failures Sample.imports Sample.surface
           Sample.consoleProps Sample_endToEnd [] 0%nat 1%nat).
  reflexivity.
Defined.

(** C1, as amended: the elements of the successfully constructed
    instances are children of the container in the order of their
    descriptors in the input, each appended when its instance is created
    (after the four style writes of the first render), not in stacking
    order; the sort that follows rearranges the collection only, which
    holds those same instances with the [isOnTop = false] group before
    the [isOnTop = true] group and, within a group, ids never
    increasing (strictly descending when the ids are distinct). *)
Theorem constructor_children_in_input_order `{Imports}
    (container : HTMLElement) (cprops : VisualConsoleProps)
    (items : list UnknownObject) (log : list string) (fresh : Node) :
  Forall (λ n, (n < fresh)%nat) (childNodes container) →
  childNodes
    (containerRef (this (constructor container cprops items log fresh)))
  = childNodes container ++ seq fresh (length (omap instanceOf items))
  ∧ (∃ u c w h,
       mutations
         (containerRef (this (constructor container cprops items log fresh)))
       = mutations container
         ++ [SetStyle Style.BackgroundImage u;
             SetStyle Style.BackgroundColor c;
             SetStyle Style.Width w; SetStyle Style.Height h]
         ++ (Append <$> seq fresh (length (omap instanceOf items))))
  ∧ elements (this (constructor container cprops items log fresh))
    ≡ₚ imap (λ i, collected (fresh + i)) (omap instanceOf items)
  ∧ stackingOrder (this (constructor container cprops items log fresh))
    ≡ₚ seq fresh (length (omap instanceOf items))
  ∧ (∀ (i j : nat) (a b : VisualConsoleItem),
       (i < j)%nat →
       elements (this (constructor container cprops items log fresh)) !! i
       = Some a →
       elements (this (constructor container cprops items log fresh)) !! j
       = Some b →
       (itemOnTop a = true → itemOnTop b = true)
       ∧ (itemOnTop a = itemOnTop b → itemId b ≤ itemId a)
       ∧ (itemOnTop a = itemOnTop b →
          NoDup (itemId
                   <$> elements
                         (this (constructor container cprops items log
                                  fresh))) →
          itemId b < itemId a)).
Proof.
  intros Hfresh.
  assert (elements (this (constructor container cprops items log fresh))
          = sort compareFn
              (imap (λ i, collected (fresh + i)) (omap instanceOf items)))
    as Hels.
  { unfold constructor. by rewrite constructItems_eq. }
  unfold stackingOrder. rewrite Hels.
  split; [|split; [|split; [|split]]].
  - unfold constructor. rewrite constructItems_eq. simpl.
    rewrite appendAll_childNodes; [done|].
    simpl. by apply Forall_forall.
  - eexists _, _, _, _.
    unfold constructor. rewrite constructItems_eq. simpl.
    rewrite (proj1 (appendAll_mutations _ _)). simpl.
    by rewrite <- !app_assoc.
  - apply sort_Permutation.
  - by rewrite sort_Permutation, fmap_elementRef_collected.
  - intros i j a b Hij Ha Hb.
    pose proof (StronglySorted_lookup _ _ i j a b
                  (sort_compareFn_StronglySorted _) Hij Ha Hb) as Hab.
    apply precedes_compareFn in Hab.
    split; [|split].
    + destruct (itemOnTop a), (itemOnTop b); by_keys.
    + destruct (itemOnTop a), (itemOnTop b); by_keys.
    + intros Htop Hnd.
      assert (itemId a ≠ itemId b) as Hne.
      { intros Heq. assert (i = j); [|lia].
        apply (NoDup_lookup _ i j (itemId a) Hnd).
        - by rewrite list_lookup_fmap, Ha.
        - by rewrite list_lookup_fmap, Hb, Heq. }
      destruct (itemOnTop a), (itemOnTop b); by_keys.
Qed.

Lemma constructor_children_in_input_order_witness :
  childNodes
    (containerRef
       (this (@constructor Sample.imports Sample.surface Sample.consoleProps
                [Sample.descriptor 5 1 false; Sample.descriptor 5 2 false]
                [] 0%nat)))
  = [0; 1]%nat
  ∧ (itemOnTop (collected 1 (Icon, VisualConsoleItemProps.mk 2 false))
     = itemOnTop (collected 0 (Icon, VisualConsoleItemProps.mk 1 false)) →
     itemId (collected 0 (Icon, VisualConsoleItemProps.mk 1 false))
     ≤ itemId (collected 1 (Icon, VisualConsoleItemProps.mk 2 false))).
Proof.
  destruct (@constructor_children_in_input_order Sample.imports
              Sample.surface Sample.consoleProps
              [Sample.descriptor 5 1 false; Sample.descriptor 5 2 false]
              [] 0%nat) as (Hc & _ & _ & _ & Hs).
  { simpl. constructor. }
  split; [exact Hc|].
  apply (Hs 0%nat 1%nat
           (collected 1 (Icon, VisualConsoleItemProps.mk 2 false))
           (collected 0 (Icon, VisualConsoleItemProps.mk 1 false))).
  - lia.
  - reflexivity.
  - reflexivity.
Defined.

(** C1, as stated, fails: for two icons with ids 1 and 2, neither on
    top, the container holds their elements in input order, 0 then 1,
    while the stacking order of the collection is 1 then 0. *)
Lemma constructor_children_not_in_stacking_order :
  childNodes (containerRef (this Sample_twoIcons)) = [0; 1]%nat
  ∧ stackingOrder (this Sample_twoIcons) = [1; 0]%nat
  ∧ childNodes (containerRef (this Sample_twoIcons))
    ≠ stackingOrder (this Sample_twoIcons).
Proof. vm_compute. repeat split; discriminate. Qed.

(** * Further properties *)

(** ** More on the console props decoder *)

(** X1: a raw bag whose [id] and [groupId] are present and
    integer-parseable, whose [name] is a non-empty string and whose size
    the size decoder accepts is decoded, and to exactly the record made
    of the parsed integers, the name, the normalised backgrounds, the
    coerced [isFavorite] and the decoded size. *)
Theorem visualConsolePropsDecoder_accepts `{Imports} (data : UnknownObject)
    (i g : Z) (n : string) (sz : Size) :
  eq_null (get data "id") = false →
  parseInt (get data "id") = Some i →
  get data "name" = JString n →
  n ≠ "" →
  eq_null (get data "groupId") = false →
  parseInt (get data "groupId") = Some g →
  sizePropsDecoder data = Return sz →
  visualConsolePropsDecoder data
  = Return (VisualConsoleProps.mk i n g
              (nonEmptyStringOrNull (get data "backgroundURL"))
              (nonEmptyStringOrNull (get data "backgroundColor"))
              (parseBoolean (get data "isFavorite"))
              (sz_width sz) (sz_height sz)).
Proof.
  intros Hid Hpid Hname Hn Hgid Hpgid Hsz.
  unfold visualConsolePropsDecoder.
  rewrite Hid, Hpid, Hname, Hgid, Hpgid, Hsz.
  by rewrite bool_decide_eq_false_2.
Qed.

Lemma visualConsolePropsDecoder_accepts_witness :
  @visualConsolePropsDecoder Sample.imports Sample.rawConsole
  = Return (VisualConsoleProps.mk 7 "console" 3 None (Some "white") true
              800 600).
Proof.
  apply (@visualConsolePropsDecoder_accepts Sample.imports Sample.rawConsole
           7 3 "console" {| sz_width := 800; sz_height := 600 |});
    first [reflexivity | discriminate].
Defined.

(** X2: the guards run in the order [id], [name], [groupId], and the
    first one that fails decides the message: an invalid [id] gives
    "invalid Id." whatever the other fields are, an invalid [name] after
    a valid [id] gives "invalid name.", and an invalid [groupId] after
    both gives "invalid group Id.". *)
Theorem visualConsolePropsDecoder_first_error `{Imports}
    (data : UnknownObject) :
  (eq_null (get data "id") = true ∨ parseInt (get data "id") = None →
   visualConsolePropsDecoder data = Throw {| message := "invalid Id." |})
  ∧ (eq_null (get data "id") = false →
     is_Some (parseInt (get data "id")) →
     (∀ s, get data "name" = JString s → s = "") →
     visualConsolePropsDecoder data = Throw {| message := "invalid name." |})
  ∧ (eq_null (get data "id") = false →
     is_Some (parseInt (get data "id")) →
     (∃ s, get data "name" = JString s ∧ s ≠ "") →
     eq_null (get data "groupId") = true
     ∨ parseInt (get data "groupId") = None →
     visualConsolePropsDecoder data
     = Throw {| message := "invalid group Id." |}).
Proof.
  unfold visualConsolePropsDecoder. split; [|split].
  - intros [Hid|Hpid].
    + by rewrite Hid.
    + rewrite Hpid. by destruct (eq_null (get data "id")).
  - intros Hid [i Hpid] Hname. rewrite Hid, Hpid.
    destruct (get data "name") as [| | | |s]; try done.
    by rewrite (Hname s eq_refl).
  - intros Hid [i Hpid] (s & Hname & Hs) Hgid. rewrite Hid, Hpid, Hname.
    rewrite bool_decide_eq_false_2 by done.
    destruct Hgid as [Hgid|Hpgid].
    + by rewrite Hgid.
    + rewrite Hpgid. by destruct (eq_null (get data "groupId")).
Qed.

(** X3: when the three guards pass and the size decoder throws, the
    console decoder throws that same error. *)
Theorem visualConsolePropsDecoder_size_error `{Imports}
    (data : UnknownObject) (e : TypeError) :
  eq_null (get data "id") = false →
  is_Some (parseInt (get data "id")) →
  (∃ s, get data "name" = JString s ∧ s ≠ "") →
  eq_null (get data "groupId") = false →
  is_Some (parseInt (get data "groupId")) →
  sizePropsDecoder data = Throw e →
  visualConsolePropsDecoder data = Throw e.
Proof.
  intros Hid [i Hpid] (s & Hname & Hs) Hgid [g Hpgid] Hsz.
  unfold visualConsolePropsDecoder.
  rewrite Hid, Hpid, Hname, Hgid, Hpgid, Hsz.
  by rewrite bool_decide_eq_false_2.
Qed.

Lemma visualConsolePropsDecoder_size_error_witness :
  @visualConsolePropsDecoder Sample.imports Sample_noWidth
  = Throw {| message := "invalid size." |}.
Proof.
  apply (@visualConsolePropsDecoder_size_error Sample.imports Sample_noWidth).
  - reflexivity.
  - exists 7. reflexivity.
  - exists "console". split; [reflexivity|discriminate].
  - reflexivity.
  - exists 3. reflexivity.
  - reflexivity.
Defined.

Lemma nonEmptyStringOrNull_Some (v : JSValue) (s : string) :
  nonEmptyStringOrNull v = Some s ↔ v = JString s ∧ s ≠ "".
Proof.
  unfold nonEmptyStringOrNull. destruct v as [| | | |s']; try (split; [done|]).
  - by intros [? _].
  - by intros [? _].
  - by intros [? _].
  - by intros [? _].
  - case_bool_decide as Hs; split.
    + by intros [= ->].
    + by intros [[= ->] _].
    + done.
    + intros [[= ->] ?]. done.
Qed.

Lemma visualConsolePropsDecoder_backgrounds_eq `{Imports}
    (data : UnknownObject) (p : VisualConsoleProps) :
  visualConsolePropsDecoder data = Return p →
  VisualConsoleProps.backgroundURL p
  = nonEmptyStringOrNull (get data "backgroundURL")
  ∧ VisualConsoleProps.backgroundColor p
    = nonEmptyStringOrNull (get data "backgroundColor").
Proof.
  unfold visualConsolePropsDecoder. intros Hp.
  destruct (eq_null (get data "id")); [done|].
  destruct (parseInt (get data "id")); [|done].
  destruct (get data "name"); try done.
  case_bool_decide; [done|].
  destruct (eq_null (get data "groupId")); [done|].
  destruct (parseInt (get data "groupId")); [|done].
  destruct (sizePropsDecoder data); [done|].
  simpl in Hp. by injection Hp as <-.
Qed.

(** X4: in a decoded record a background is either unset or the
    non-empty string of the raw bag: an absent, null, empty or non-string
    [backgroundURL] or [backgroundColor] is stored as unset, and the
    empty string is never stored. *)
Theorem visualConsolePropsDecoder_backgrounds `{Imports}
    (data : UnknownObject) (p : VisualConsoleProps) :
  visualConsolePropsDecoder data = Return p →
  (∀ s, VisualConsoleProps.backgroundURL p = Some s ↔
        get data "backgroundURL" = JString s ∧ s ≠ "")
  ∧ (∀ s, VisualConsoleProps.backgroundColor p = Some s ↔
          get data "backgroundColor" = JString s ∧ s ≠ "")
  ∧ (VisualConsoleProps.backgroundURL p = None ↔
     ∀ s, get data "backgroundURL" = JString s → s = "")
  ∧ (VisualConsoleProps.backgroundColor p = None ↔
     ∀ s, get data "backgroundColor" = JString s → s = "").
Proof.
  intros Hp.
  destruct (visualConsolePropsDecoder_backgrounds_eq data p Hp) as [-> ->].
  assert (∀ v, nonEmptyStringOrNull v = None ↔
               ∀ s, v = JString s → s = "") as Hnone.
  { intros v. split.
    - intros Hv s ->. simpl in Hv. by case_bool_decide; [|destruct (decide (s = ""))].
    - intros Hv. destruct (nonEmptyStringOrNull v) as [s|] eqn:Hs; [|done].
      apply nonEmptyStringOrNull_Some in Hs as [-> Hs].
      by specialize (Hv s eq_refl). }
  split; [|split; [|split]]; auto using nonEmptyStringOrNull_Some.
Qed.

Lemma visualConsolePropsDecoder_backgrounds_witness :
  VisualConsoleProps.backgroundURL
    (VisualConsoleProps.mk 7 "console" 3 None (Some "white") true 800 600)
  = None
  ↔ ∀ s, get Sample.rawConsole "backgroundURL" = JString s → s = "".
Proof.
  apply (@visualConsolePropsDecoder_backgrounds Sample.imports
           Sample.rawConsole
           (VisualConsoleProps.mk 7 "console" 3 None (Some "white") true
              800 600)).
  reflexivity.
Defined.

(** ** More on the item factory *)

(** X5: when the enumeration members have distinct numbers and [type]
    is the number of STATIC_GRAPH, ICON, GROUP_ITEM or COLOR_CLOUD, the
    factory runs the props decoder of that variant on the descriptor: it
    returns a new instance of the matching class with the decoded props
    when the decoder returns, and throws the decoder's error when it
    throws. *)
Theorem itemInstanceFrom_dispatch `{Imports} (data : UnknownObject)
    (fresh : Node) (v : VisualConsoleItemType) (c : ItemClass) :
  Inj (=) (=) typeTag →
  parseIntOr (get data "type") None = Some (typeTag v) →
  implemented v = Some c →
  itemInstanceFrom data fresh
  = match decoderOf c data with
    | Return p => Return (new c p fresh)
    | Throw e => Throw e
    end.
Proof.
  intros Hinj Htype Hc.
  assert (∀ a b, a ≠ b → (typeTag a =? typeTag b) = false) as Hne.
  { intros a b Hab. apply Z.eqb_neq. intros Heq. by apply Hinj in Heq. }
  unfold itemInstanceFrom. rewrite Htype.
  destruct v; simpl in Hc; try discriminate Hc; injection Hc as <-;
    repeat match goal with
           | |- context [typeTag ?a =? typeTag ?b] =>
               first [ rewrite (Z.eqb_refl (typeTag a))
                     | rewrite (Hne a b) by discriminate ]
           end;
    reflexivity.
Qed.

Lemma itemInstanceFrom_dispatch_witness :
  @itemInstanceFrom Sample.imports (Sample.descriptor 11 4 true) 9%nat
  = Return (new Group (VisualConsoleItemProps.mk 4 true) 9%nat).
Proof.
  apply (@itemInstanceFrom_dispatch Sample.imports
           (Sample.descriptor 11 4 true) 9%nat GROUP_ITEM Group).
  - intros x y. destruct x, y; simpl; intros Heq;
      first [reflexivity | discriminate Heq].
  - reflexivity.
  - reflexivity.
Defined.

(** X6: whenever the factory returns an instance, [type] resolved to the
    number of one of the four implemented variants, the instance is of
    that variant's class, its props are what that variant's decoder
    returned for the descriptor, it owns the new element and it has no
    click handler yet. *)
Theorem itemInstanceFrom_returns `{Imports} (data : UnknownObject)
    (fresh : Node) (it : VisualConsoleItem) :
  itemInstanceFrom data fresh = Return it →
  elementRef it = fresh
  ∧ clickHandlers it = []
  ∧ decoderOf (class it) data = Return (props it)
  ∧ ∃ v, parseIntOr (get data "type") None = Some (typeTag v)
         ∧ implemented v = Some (class it).
Proof.
  unfold itemInstanceFrom, notFound.
  destruct (parseIntOr (get data "type") None) as [n|]; [|done].
  repeat match goal with
         | |- (if ?n =? typeTag ?v then _ else _) = _ → _ =>
             destruct (Z.eqb_spec n (typeTag v)) as [->|_];
               [first
                  [ discriminate
                  | let p := fresh "p" in
                    let Hd := fresh "Hd" in
                    simpl;
                    match goal with
                    | |- (?d data ≫= _) = _ → _ =>
                        destruct (d data) as [?|p] eqn:Hd;
                          [discriminate|];
                        intros [= <-]; simpl;
                        split; [done|]; split; [done|]; split; [done|];
                        by exists v
                    end ]
               |]
         end.
  discriminate.
Qed.

Lemma itemInstanceFrom_returns_witness :
  elementRef (new Icon (VisualConsoleItemProps.mk 1 false) 3%nat) = 3%nat
  ∧ clickHandlers (new Icon (VisualConsoleItemProps.mk 1 false) 3%nat) = []
  ∧ @decoderOf Sample.imports Icon (Sample.descriptor 5 1 false)
    = Return (VisualConsoleItemProps.mk 1 false)
  ∧ ∃ v, @parseIntOr Sample.imports
           (get (Sample.descriptor 5 1 false) "type") None
         = Some (Sample.typeTag v)
         ∧ implemented v = Some Icon.
Proof.
  apply (@itemInstanceFrom_returns Sample.imports
           (Sample.descriptor 5 1 false) 3%nat
           (new Icon (VisualConsoleItemProps.mk 1 false) 3%nat)).
  reflexivity.
Defined.

(** ** More on the diffed render *)

(** The diffed render brings a style that matches the previous props to
    the style that matches the new ones. *)
Lemma lastWrite_app (p : Style.property) (ms ws : list Mutation) :
  lastWrite p (ms ++ ws)
  = match lastWrite p ws with
    | Some v => Some v
    | None => lastWrite p ms
    end.
Proof.
  induction ms as [|m ms IH]; simpl.
  - by destruct (lastWrite p ws).
  - rewrite IH. by destruct (lastWrite p ws).
Qed.

Lemma lastWrite_appends (p : Style.property) (ns : list Node) :
  lastWrite p (Append <$> ns) = None.
Proof. induction ns as [|n ns IH]; csimpl; [done|]. by rewrite IH. Qed.

(** The diffed render keeps the last writes in step with the props. *)
Lemma set_props_inSync (next : VisualConsoleProps) (this : VisualConsole) :
  inSync this → inSync (set_props next this).
Proof.
  intros Hs p. specialize (Hs p).
  rewrite set_props_mutations, (proj1 (set_props_stored next this)).
  rewrite lastWrite_app. revert Hs.
  unfold patches, assigned.
  destruct (get_props this) as [i' n' g' u' col' f' w' h'].
  destruct next as [i n g u col f w h]. simpl.
  destruct p; repeat case_bool_decide; simpl; intros Hs;
    repeat match goal with
           | H : _ ∧ _ |- _ => destruct H
           end; subst; done.
Qed.

Lemma constructor_props `{Imports} (container : HTMLElement)
    (cprops : VisualConsoleProps) (items : list UnknownObject)
    (log : list string) (fresh : Node) :
  get_props (this (constructor container cprops items log fresh)) = cprops.
Proof. unfold constructor. by rewrite constructItems_eq. Qed.

Lemma constructor_mutations `{Imports} (container : HTMLElement)
    (cprops : VisualConsoleProps) (items : list UnknownObject)
    (log : list string) (fresh : Node) :
  mutations
    (containerRef (this (constructor container cprops items log fresh)))
  = mutations container
    ++ [SetStyle Style.BackgroundImage
          (assigned Style.BackgroundImage cprops);
        SetStyle Style.BackgroundColor
          (assigned Style.BackgroundColor cprops);
        SetStyle Style.Width (assigned Style.Width cprops);
        SetStyle Style.Height (assigned Style.Height cprops)]
    ++ (Append <$> seq fresh (length (omap instanceOf items))).
Proof.
  unfold constructor. rewrite constructItems_eq. simpl.
  rewrite (proj1 (appendAll_mutations _ _)). simpl.
  by rewrite <- !app_assoc.
Qed.

Lemma constructor_inSync `{Imports} (container : HTMLElement)
    (cprops : VisualConsoleProps) (items : list UnknownObject)
    (log : list string) (fresh : Node) :
  inSync (this (constructor container cprops items log fresh)).
Proof.
  intros p. rewrite constructor_mutations, constructor_props.
  rewrite !lastWrite_app, lastWrite_appends. by destruct p.
Qed.



Lemma setAll_inSync (updates : list VisualConsoleProps)
    (this : VisualConsole) :
  inSync this →
  inSync (setAll updates this)
  ∧ get_props (setAll updates this) = default (get_props this) (last updates)
  ∧ childNodes (containerRef (setAll updates this))
    = childNodes (containerRef this)
  ∧ elements (setAll updates this) = elements this.
Proof.
  revert this. induction updates as [|p updates IH]; intros this Hs; [done|].
  unfold setAll in *. simpl.
  destruct (IH (set_props p this)) as (Hsync & -> & -> & ->).
  { by apply set_props_inSync. }
  rewrite set_props_childNodes.
  destruct (set_props_stored p this) as [Hp ->]. rewrite Hp.
  split; [done|]. split; [|done].
  destruct updates as [|q updates]; [done|].
  rewrite last_cons_cons.
  destruct (proj2 (last_is_Some (q :: updates))) as [x ->]; done.
Qed.

(** X8: after construction and any sequence of assignments to [props],
    the value last written to each of the four style attributes is the
    one a full render of the props now stored would write; the stored
    props are the last ones assigned, and the children and the
    collection are those the constructor left. *)
Theorem updates_keep_surface_in_sync `{Imports} (container : HTMLElement)
    (cprops : VisualConsoleProps) (items : list UnknownObject)
    (log : list string) (fresh : Node) (updates : list VisualConsoleProps) :
  (∀ p,
     lastWrite p
       (mutations
          (containerRef
             (setAll updates
                (this (constructor container cprops items log fresh)))))
     = lastWrite p
         (mutations
            (containerRef
               (render None
                  {| containerRef := container;
                     _props := default cprops (last updates);
                     elements := [] |}))))
  ∧ get_props
      (setAll updates (this (constructor container cprops items log fresh)))
    = default cprops (last updates)
  ∧ childNodes
      (containerRef
         (setAll updates
            (this (constructor container cprops items log fresh))))
    = childNodes
        (containerRef (this (constructor container cprops items log fresh)))
  ∧ elements
      (setAll updates (this (constructor container cprops items log fresh)))
    = elements (this (constructor container cprops items log fresh)).
Proof.
  destruct (setAll_inSync updates
              (this (constructor container cprops items log fresh)))
    as (Hsync & Hp & Hc & He); [apply constructor_inSync|].
  rewrite constructor_props in Hp.
  split; [|by rewrite Hp, Hc, He].
  intros p. rewrite (Hsync p), Hp. simpl.
  rewrite !lastWrite_app. by destruct p.
Qed.

Lemma patches_length (prev next : VisualConsoleProps) :
  (length (patches prev next) ≤ 4)%nat.
Proof. unfold patches. repeat case_bool_decide; simpl; lia. Qed.

Lemma patches_nil (prev next : VisualConsoleProps) :
  patches prev next = [] ↔
  VisualConsoleProps.backgroundURL next = VisualConsoleProps.backgroundURL prev
  ∧ VisualConsoleProps.backgroundColor next
    = VisualConsoleProps.backgroundColor prev
  ∧ VisualConsoleProps.width next = VisualConsoleProps.width prev
  ∧ VisualConsoleProps.height next = VisualConsoleProps.height prev.
Proof.
  split.
  - unfold patches. repeat case_bool_decide; simpl; try discriminate.
    intros _. repeat match goal with
                     | H : _ ∧ _ |- _ => destruct H
                     end. done.
  - intros (Hu & Hc & Hw & Hh). by apply patches_same_visual.
Qed.

(** X9: an assignment to [props] never touches the children of the
    container or the collection; what it adds to the container's
    mutations is at most four writes, all of them style writes, and it
    adds none exactly when [backgroundURL], [backgroundColor], [width]
    and [height] are all unchanged. *)
Theorem set_props_frame (next : VisualConsoleProps) (this : VisualConsole) :
  childNodes (containerRef (set_props next this))
  = childNodes (containerRef this)
  ∧ elements (set_props next this) = elements this
  ∧ ∃ ws,
      mutations (containerRef (set_props next this))
      = mutations (containerRef this) ++ ws
      ∧ (length ws ≤ 4)%nat
      ∧ (∀ m, m ∈ ws → ∃ p v, m = SetStyle p v)
      ∧ (ws = [] ↔
         VisualConsoleProps.backgroundURL next
         = VisualConsoleProps.backgroundURL (get_props this)
         ∧ VisualConsoleProps.backgroundColor next
           = VisualConsoleProps.backgroundColor (get_props this)
         ∧ VisualConsoleProps.width next
           = VisualConsoleProps.width (get_props this)
         ∧ VisualConsoleProps.height next
           = VisualConsoleProps.height (get_props this)).
Proof.
  split; [apply set_props_childNodes|].
  split; [apply set_props_stored|].
  exists (patches (get_props this) next).
  split; [apply set_props_mutations|].
  split; [apply patches_length|].
  split; [apply patches_are_style|apply patches_nil].
Qed.



(** X11: when the new props differ from the stored ones in
    [backgroundURL] only among the four visual fields, the assignment
    performs one mutation: it writes the new [backgroundURL], as it is,
    to the background-image style. *)
Theorem set_props_backgroundURL_only (next : VisualConsoleProps)
    (this : VisualConsole) :
  VisualConsoleProps.backgroundURL next
  ≠ VisualConsoleProps.backgroundURL (get_props this) →
  VisualConsoleProps.backgroundColor next
  = VisualConsoleProps.backgroundColor (get_props this) →
  VisualConsoleProps.width next = VisualConsoleProps.width (get_props this) →
  VisualConsoleProps.height next = VisualConsoleProps.height (get_props this) →
  mutations (containerRef (set_props next this))
  = mutations (containerRef this)
    ++ [SetStyle Style.BackgroundImage
          (VisualConsoleProps.backgroundURL next)].
Proof.
  intros Hu Hc Hw Hh.
  rewrite set_props_mutations. f_equal. unfold patches.
  rewrite (bool_decide_eq_false_2 (_ = VisualConsoleProps.backgroundURL _))
    by congruence.
  rewrite (bool_decide_eq_true_2
             (_ = VisualConsoleProps.backgroundColor _)) by done.
  rewrite bool_decide_eq_true_2 by done. reflexivity.
Qed.

Lemma set_props_backgroundURL_only_witness :
  mutations (containerRef (set_props Sample_withImage Sample_console))
  = [SetStyle Style.BackgroundImage (Some "bg.png")].
Proof.
  apply (set_props_backgroundURL_only Sample_withImage Sample_console).
  - simpl. discriminate.
  - reflexivity.
  - reflexivity.
  - reflexivity.
Defined.

Lemma with_size_same (p : VisualConsoleProps) :
  VisualConsoleProps.with_size p (VisualConsoleProps.width p)
    (VisualConsoleProps.height p) = p.
Proof. by destruct p. Qed.

Lemma resize_stored (w h : Z) (this : VisualConsole) :
  get_props (resize w h this)
  = VisualConsoleProps.with_size (get_props this) w h.
Proof. unfold resize. apply set_props_stored. Qed.

Lemma resize_same (this : VisualConsole) :
  resize (VisualConsoleProps.width (get_props this))
    (VisualConsoleProps.height (get_props this)) this = this.
Proof.
  unfold resize. rewrite with_size_same, set_props_spec_eq.
  unfold setProps_spec. rewrite patches_same_visual by done.
  by destruct this.
Qed.

(** X12: resizing to the stored size changes nothing at all, so a resize
    repeated with the same arguments is the same as a single one. *)
Theorem resize_idempotent (w h : Z) (this : VisualConsole) :
  resize (VisualConsoleProps.width (get_props this))
    (VisualConsoleProps.height (get_props this)) this = this
  ∧ resize w h (resize w h this) = resize w h this.
Proof.
  split; [apply resize_same|].
  pose proof (resize_same (resize w h this)) as Hsame.
  by rewrite resize_stored in Hsame.
Qed.

Lemma with_size_with_size (p : VisualConsoleProps) (w1 h1 w2 h2 : Z) :
  VisualConsoleProps.with_size (VisualConsoleProps.with_size p w1 h1) w2 h2
  = VisualConsoleProps.with_size p w2 h2.
Proof. done. Qed.

(** X13: of two resizes in a row the last one decides: the stored props
    and, for a console whose last style writes are those of its stored
    props, the value last written to each style attribute are the same
    as after the second resize alone; the children are the same too. *)
Theorem resize_last_wins (w1 h1 w2 h2 : Z) (this : VisualConsole) :
  inSync this →
  get_props (resize w2 h2 (resize w1 h1 this)) = get_props (resize w2 h2 this)
  ∧ (∀ p,
       lastWrite p
         (mutations (containerRef (resize w2 h2 (resize w1 h1 this))))
       = lastWrite p (mutations (containerRef (resize w2 h2 this))))
  ∧ childNodes (containerRef (resize w2 h2 (resize w1 h1 this)))
    = childNodes (containerRef (resize w2 h2 this)).
Proof.
  intros Hs.
  assert (get_props (resize w2 h2 (resize w1 h1 this))
          = get_props (resize w2 h2 this)) as Hp.
  { by rewrite !resize_stored. }
  split; [done|]. split.
  - intros p.
    assert (inSync (resize w2 h2 (resize w1 h1 this))) as H12.
    { unfold resize. by do 2 apply set_props_inSync. }
    assert (inSync (resize w2 h2 this)) as H2.
    { unfold resize. by apply set_props_inSync. }
    by rewrite (H12 p), (H2 p), Hp.
  - unfold resize. by rewrite !set_props_childNodes.
Qed.

Lemma resize_last_wins_witness :
  get_props (resize 30 40 (resize 10 20 (render None Sample_console)))
  = get_props (resize 30 40 (render None Sample_console))
  ∧ (∀ p,
       lastWrite p
         (mutations
            (containerRef
               (resize 30 40 (resize 10 20 (render None Sample_console)))))
       = lastWrite p
           (mutations
              (containerRef (resize 30 40 (render None Sample_console)))))
  ∧ childNodes
      (containerRef
         (resize 30 40 (resize 10 20 (render None Sample_console))))
    = childNodes (containerRef (resize 30 40 (render None Sample_console))).
Proof.
  apply (resize_last_wins 10 20 30 40 (render None Sample_console)).
  intros p. destruct p; reflexivity.
Defined.

(** ** More on the stacking sort *)

Lemma sort_compareFn_lookup (l : list VisualConsoleItem) (i j : nat)
    (a b : VisualConsoleItem) :
  (i < j)%nat →
  sort compareFn l !! i = Some a →
  sort compareFn l !! j = Some b →
  (itemOnTop a = true → itemOnTop b = true)
  ∧ (itemOnTop a = itemOnTop b → itemId b ≤ itemId a).
Proof.
  intros Hij Ha Hb.
  pose proof (StronglySorted_lookup _ _ i j a b
                (sort_compareFn_StronglySorted l) Hij Ha Hb) as Hab.
  apply precedes_compareFn in Hab.
  destruct (itemOnTop a), (itemOnTop b); by_keys.
Qed.

(** X14: for every collection, also one in which ids collide, the sort
    rearranges it so that no instance with [isOnTop = true] comes before
    one with [isOnTop = false] and, within the same [isOnTop], ids never
    increase. *)
Theorem sort_stacking_order_any (l : list VisualConsoleItem) :
  sort compareFn l ≡ₚ l
  ∧ ∀ (i j : nat) (a b : VisualConsoleItem),
      (i < j)%nat →
      sort compareFn l !! i = Some a →
      sort compareFn l !! j = Some b →
      (itemOnTop a = true → itemOnTop b = true)
      ∧ (itemOnTop a = itemOnTop b → itemId b ≤ itemId a).
Proof.
  split; [apply sort_Permutation|apply sort_compareFn_lookup].
Qed.

(** X15: the comparator answers 1 or -1; "does not ask to move [a] after
    [b]" is a total and transitive relation on instances; and swapping
    the arguments flips the answer exactly when the two instances differ
    in [isOnTop] or in id. *)
Theorem compareFn_total_preorder :
  (∀ a b, compareFn a b = 1 ∨ compareFn a b = -1)
  ∧ (∀ a b, precedes compareFn a b ∨ precedes compareFn b a)
  ∧ (∀ a b c, precedes compareFn a b → precedes compareFn b c →
              precedes compareFn a c)
  ∧ (∀ a b, compareFn a b = - compareFn b a ↔
            itemOnTop a ≠ itemOnTop b ∨ itemId a ≠ itemId b).
Proof.
  split; [apply compareFn_cases|]. split; [|split].
  - intros a b. destruct (compareFn_cases a b) as [Hab|Hab].
    + right. apply compareFn_total. lia.
    + left. unfold precedes. lia.
  - intros a b c. apply precedes_compareFn_trans.
  - intros a b. unfold compareFn, itemOnTop, itemId.
    destruct (VisualConsoleItemProps.isOnTop (props a)),
      (VisualConsoleItemProps.isOnTop (props b)); simpl;
      destruct (Z.ltb_spec (VisualConsoleItemProps.id (props a))
                  (VisualConsoleItemProps.id (props b)));
      destruct (Z.ltb_spec (VisualConsoleItemProps.id (props b))
                  (VisualConsoleItemProps.id (props a)));
      split; intros; try lia; try by_keys; try (by left); right; lia.
Qed.

(** X16: with pairwise distinct ids the sorted collection does not
    depend on the order in which the instances were pushed, and sorting
    it again changes nothing. *)
Theorem sort_order_independent (l l' : list VisualConsoleItem) :
  NoDup (itemId <$> l) →
  l' ≡ₚ l →
  sort compareFn l' = sort compareFn l
  ∧ sort compareFn (sort compareFn l) = sort compareFn l.
Proof.
  intros Hnd Hp. split.
  - apply sort_compareFn_unique; [done| |apply sort_compareFn_StronglySorted].
    by rewrite sort_Permutation.
  - apply sort_compareFn_unique; [done| |apply sort_compareFn_StronglySorted].
    by rewrite !sort_Permutation.
Qed.

Lemma sort_order_independent_witness :
  sort compareFn [itemC; itemB; itemA] = sort compareFn [itemA; itemB; itemC]
  ∧ sort compareFn (sort compareFn [itemA; itemB; itemC])
    = sort compareFn [itemA; itemB; itemC].
Proof.
  apply (sort_order_independent [itemA; itemB; itemC] [itemC; itemB; itemA]).
  - apply (bool_decide_unpack _). vm_compute. exact I.
  - apply (bool_decide_unpack _). vm_compute. exact I.
Defined.

(** ** More on the constructor *)

Lemma constructor_elements `{Imports} (container : HTMLElement)
    (cprops : VisualConsoleProps) (items : list UnknownObject)
    (log : list string) (fresh : Node) :
  elements (this (constructor container cprops items log fresh))
  = sort compareFn
      (imap (λ i, collected (fresh + i)) (omap instanceOf items))
  ∧ nextNode (constructor container cprops items log fresh)
    = (fresh + length (omap instanceOf items))%nat.
Proof. unfold constructor. by rewrite constructItems_eq. Qed.

(** X17: in the constructed console every instance of the collection
    carries exactly one click handler, the logging relay; the instances
    own pairwise distinct elements, which are the nodes handed out
    during construction; and the document has handed out one node per
    instance. *)
Theorem constructor_instances `{Imports} (container : HTMLElement)
    (cprops : VisualConsoleProps) (items : list UnknownObject)
    (log : list string) (fresh : Node) :
  (∀ it, it ∈ elements (this (constructor container cprops items log fresh)) →
         clickHandlers it = [LogClicked]
         ∧ (fresh ≤ elementRef it
            < nextNode (constructor container cprops items log fresh))%nat)
  ∧ NoDup (stackingOrder (this (constructor container cprops items log fresh)))
  ∧ nextNode (constructor container cprops items log fresh)
    = (fresh
       + length
           (elements (this (constructor container cprops items log fresh))))%nat.
Proof.
  destruct (constructor_elements container cprops items log fresh)
    as [Hels Hnext].
  unfold stackingOrder. rewrite Hels, Hnext.
  split; [|split].
  - intros it Hit. rewrite sort_Permutation in Hit.
    apply list_elem_of_lookup in Hit as [i Hi].
    rewrite list_lookup_imap in Hi.
    destruct (omap instanceOf items !! i) as [cp|] eqn:Hcp; [|done].
    injection Hi as <-. split; [done|]. simpl.
    apply lookup_lt_Some in Hcp. lia.
  - rewrite sort_Permutation, fmap_elementRef_collected. apply NoDup_seq.
  - by rewrite sort_Permutation, length_imap.
Qed.

Lemma omap_instanceOf_filter `{Imports} (items : list UnknownObject) :
  omap instanceOf (filter (λ d, is_Some (instanceOf d)) items)
  = omap instanceOf items.
Proof.
  induction items as [|d items IH]; [done|].
  destruct (instanceOf d) as [cp|] eqn:Hd.
  - rewrite filter_cons_True by (by rewrite Hd). csimpl. by rewrite Hd, IH.
  - rewrite filter_cons_False by (rewrite Hd; by intros [??]).
    csimpl. by rewrite Hd, IH.
Qed.

(** X18: the descriptors the factory rejects leave no trace in the
    console: the console built from a list of descriptors (container,
    props and collection) is the one built from the accepted descriptors
    alone, and the same nodes are handed out. *)
Theorem constructor_ignores_failures `{Imports} (container : HTMLElement)
    (cprops : VisualConsoleProps) (items : list UnknownObject)
    (log : list string) (fresh : Node) :
  this (constructor container cprops items log fresh)
  = this (constructor container cprops
            (filter (λ d, is_Some (instanceOf d)) items) log fresh)
  ∧ nextNode (constructor container cprops items log fresh)
    = nextNode (constructor container cprops
                  (filter (λ d, is_Some (instanceOf d)) items) log fresh).
Proof.
  unfold constructor. rewrite !constructItems_eq. simpl.
  by rewrite omap_instanceOf_filter.
Qed.

(** X19: when the factory rejects every descriptor (in particular when
    there is none), the collection is empty, the container has had its
    first render and nothing else, no node is handed out, and the log
    has one more line per descriptor. *)
Theorem constructor_all_rejected `{Imports} (container : HTMLElement)
    (cprops : VisualConsoleProps) (items : list UnknownObject)
    (log : list string) (fresh : Node) :
  Forall (λ d, instanceOf d = None) items →
  this (constructor container cprops items log fresh)
  = render None
      {| containerRef := container; _props := cprops; elements := [] |}
  ∧ childNodes
      (containerRef (this (constructor container cprops items log fresh)))
    = childNodes container
  ∧ nextNode (constructor container cprops items log fresh) = fresh
  ∧ length (consoleLog (constructor container cprops items log fresh))
    = (length log + length items)%nat.
Proof.
  intros Hall.
  assert (omap instanceOf items = []) as Hnone.
  { induction Hall as [|d items Hd _ IH]; [done|].
    csimpl. by rewrite Hd. }
  pose proof (length_instanceOf_errorOf items) as Hlen.
  unfold constructor. rewrite constructItems_eq, Hnone in *. simpl in *.
  rewrite Nat.add_0_r, length_app, length_fmap.
  repeat split; lia.
Qed.

Lemma constructor_all_rejected_witness :
  this (@constructor Sample.imports Sample.surface Sample.consoleProps
          [Sample.descriptor 999 1 false; Sample.descriptor 2 2 true]
          [] 5%nat)
  = render None Sample_console
  ∧ childNodes
      (containerRef
         (this (@constructor Sample.imports Sample.surface
                  Sample.consoleProps
                  [Sample.descriptor 999 1 false; Sample.descriptor 2 2 true]
                  [] 5%nat)))
    = []
  ∧ nextNode (@constructor Sample.imports Sample.surface Sample.consoleProps
                [Sample.descriptor 999 1 false; Sample.descriptor 2 2 true]
                [] 5%nat)
    = 5%nat
  ∧ length
      (consoleLog
         (@constructor Sample.imports Sample.surface Sample.consoleProps
            [Sample.descriptor 999 1 false; Sample.descriptor 2 2 true]
            [] 5%nat))
    = 2%nat.
Proof.
  apply (@constructor_all_rejected Sample.imports Sample.surface
           Sample.consoleProps
           [Sample.descriptor 999 1 false; Sample.descriptor 2 2 true]
           [] 5%nat).
  repeat constructor.
Defined.

(** X20: the collection of a constructed console is in stacking order
    whatever the descriptors are: no instance with [isOnTop = true] comes
    before one with [isOnTop = false], and within the same [isOnTop] ids
    never increase. *)
Theorem constructor_collection_sorted `{Imports} (container : HTMLElement)
    (cprops : VisualConsoleProps) (items : list UnknownObject)
    (log : list string) (fresh : Node) (i j : nat)
    (a b : VisualConsoleItem) :
  (i < j)%nat →
  elements (this (constructor container cprops items log fresh)) !! i
  = Some a →
  elements (this (constructor container cprops items log fresh)) !! j
  = Some b →
  (itemOnTop a = true → itemOnTop b = true)
  ∧ (itemOnTop a = itemOnTop b → itemId b ≤ itemId a).
Proof.
  rewrite (proj1 (constructor_elements container cprops items log fresh)).
  apply sort_compareFn_lookup.
Qed.

Lemma constructor_collection_sorted_witness :
  (itemOnTop (collected 1 (Icon, VisualConsoleItemProps.mk 2 false)) = true →
   itemOnTop (collected 0 (Icon, VisualConsoleItemProps.mk 1 false)) = true)
  ∧ (itemOnTop (collected 1 (Icon, VisualConsoleItemProps.mk 2 false))
     = itemOnTop (collected 0 (Icon, VisualConsoleItemProps.mk 1 false)) →
     itemId (collected 0 (Icon, VisualConsoleItemProps.mk 1 false))
     ≤ itemId (collected 1 (Icon, VisualConsoleItemProps.mk 2 false))).
Proof.
  apply (@constructor_collection_sorted Sample.imports Sample.surface
           Sample.consoleProps
           [Sample.descriptor 5 1 false; Sample.descriptor 5 2 false]
           [] 0%nat 0%nat 1%nat).
  - lia.
  - reflexivity.
  - reflexivity.
Defined.

(** ** [remove] *)

Lemma filter_none {A} (P : A → Prop) `{∀ x, Decision (P x)} (l : list A) :
  (∀ x, x ∈ l → ¬ P x) → filter P l = [].
Proof.
  induction l as [|x l IH]; intros Hnone; [done|].
  rewrite filter_cons_False by (apply Hnone; left).
  apply IH. intros y Hy. apply Hnone. by right.
Qed.

Lemma childNodes_remove_all
    (itemRemove : VisualConsoleItem → HTMLElement → HTMLElement)
    (els : list VisualConsoleItem) (c : HTMLElement) :
  (∀ e c, childNodes (itemRemove e c)
          = filter (λ n, n ≠ elementRef e) (childNodes c)) →
  childNodes (foldl (λ c e, itemRemove e c) c els)
  = filter (λ n, n ∉ elementRef <$> els) (childNodes c).
Proof.
  intros Hrm. revert c. induction els as [|e els IH]; intros c; simpl.
  - symmetry. apply filter_all. intros n _. apply not_elem_of_nil.
  - rewrite IH, Hrm, list_filter_filter.
    apply list_filter_iff. intros n. rewrite not_elem_of_cons. tauto.
Qed.

(** X21: when removing an item detaches the element the item owns, a
    console built on a container whose children are older than the
    nodes handed out, and then removed, leaves the container with the
    children it had before construction; the collection is empty, the
    props are kept, and a second [remove] changes nothing. *)
Theorem constructor_remove_children `{Imports}
    (itemRemove : VisualConsoleItem → HTMLElement → HTMLElement)
    (container : HTMLElement) (cprops : VisualConsoleProps)
    (items : list UnknownObject) (log : list string) (fresh : Node) :
  Forall (λ n, (n < fresh)%nat) (childNodes container) →
  (∀ e c, childNodes (itemRemove e c)
          = filter (λ n, n ≠ elementRef e) (childNodes c)) →
  childNodes
    (containerRef
       (remove itemRemove
          (this (constructor container cprops items log fresh))))
  = childNodes container
  ∧ elements
      (remove itemRemove
         (this (constructor container cprops items log fresh))) = []
  ∧ get_props
      (remove itemRemove
         (this (constructor container cprops items log fresh))) = cprops
  ∧ remove itemRemove
      (remove itemRemove
         (this (constructor container cprops items log fresh)))
    = remove itemRemove
        (this (constructor container cprops items log fresh)).
Proof.
  intros Hfresh Hrm.
  split; [|split; [done|split; [apply constructor_props|done]]].
  change (containerRef (remove itemRemove ?t))
    with (foldl (λ c e, itemRemove e c) (containerRef t) (elements t)).
  rewrite (childNodes_remove_all itemRemove _ _ Hrm).
  destruct (constructor_elements container cprops items log fresh)
    as [Hels _].
  assert (elementRef
            <$> elements (this (constructor container cprops items log fresh))
          ≡ₚ seq fresh (length (omap instanceOf items))) as Hrefs.
  { by rewrite Hels, sort_Permutation, fmap_elementRef_collected. }
  assert (childNodes
            (containerRef
               (this (constructor container cprops items log fresh)))
          = childNodes container
            ++ seq fresh (length (omap instanceOf items))) as ->.
  { unfold constructor. rewrite constructItems_eq. simpl.
    rewrite appendAll_childNodes; [done|]. simpl. by apply Forall_forall. }
  rewrite filter_app, filter_all, filter_none.
  - apply app_nil_r.
  - intros n Hn Hnot. apply Hnot. by rewrite Hrefs.
  - intros n Hn. rewrite Hrefs, elem_of_seq.
    rewrite Forall_forall in Hfresh. apply Hfresh in Hn. lia.
Qed.

Lemma constructor_remove_children_witness :
  childNodes
    (containerRef
       (remove detach
          (this (@constructor Sample.imports Sample_busySurface
                   Sample.consoleProps Sample_endToEnd [] 2%nat))))
  = [0; 1]%nat.
Proof.
  eapply proj1.
  apply (@constructor_remove_children Sample.imports detach
           Sample_busySurface Sample.consoleProps Sample_endToEnd [] 2%nat).
  - simpl. repeat constructor.
  - reflexivity.
Defined.
